(** * efinance: the quote getters of [efinance/common/getter.py]

    A shallow embedding of the getters and of the batch orchestrator
    [get_quote_history_multi], followed by the properties the
    specification states about them.

    Layout: part I holds the model (data, normaliser, remote service,
    fetchers, reference cache, batch orchestrator, dispatch facade and a few
    concrete services used as test inputs); part II holds the properties. *)

From Stdlib Require Import Ascii String.
From stdpp Require Import base option list strings gmap pretty relations.

#[local] Set Warnings "-register-all".

(** * Part I. The model *)

(** ** Python strings *)

(** [sep.join(parts)]. *)
Fixpoint join (sep : string) (parts : list string) : string :=
  match parts with
  | [] => EmptyString
  | [p] => p
  | p :: rest => p +:+ sep +:+ join sep rest
  end.

(** [s.split(sep)] for a one-character separator: the pieces between the
    occurrences of [sep], empty pieces kept, never the empty list. *)
Fixpoint split (sep : Ascii.ascii) (s : string) : list string :=
  match s with
  | EmptyString => [EmptyString]
  | String c rest =>
      if Ascii.eqb c sep then EmptyString :: split sep rest
      else match split sep rest with
           | piece :: pieces => String c piece :: pieces
           | [] => [String c EmptyString]
           end
  end.

(** [xs[-1]] on a list of strings that [split] produced. *)
Definition last_piece (xs : list string) : string := List.last xs EmptyString.

(** ** Decoded JSON and table cells *)

(** Numbers are kept abstract: the wire carries decimal text, pandas holds
    machine floats and integers. [parse_number] is the text-to-number
    conversion the normaliser relies on; [is_zero] tells the one number that
    Python takes for false. *)
Class Numeric := {
  number : Type;
  parse_number : string → option number;
  is_zero : number → bool;
}.

Section Data.
Context `{Numeric}.

(** What [response.json()] yields: [None], [bool], a number, [str], [list]
    or [dict] (members in insertion order). *)
Inductive Json :=
| JNull
| JBool (b : bool)
| JNum (n : number)
| JStr (s : string)
| JArr (items : list Json)
| JObj (members : list (string * Json)).

(** [d[key]] on the members of a dict. *)
Fixpoint member (key : string) (members : list (string * Json)) : option Json :=
  match members with
  | [] => None
  | (k, v) :: rest => if String.eqb k key then Some v else member key rest
  end.

(** Python truthiness of a decoded value, as in [if not items]. *)
Definition truthy (j : Json) : bool :=
  match j with
  | JNull => false
  | JBool b => b
  | JNum n => negb (is_zero n)
  | JStr s => match s with EmptyString => false | _ => true end
  | JArr items => match items with [] => false | _ => true end
  | JObj members => match members with [] => false | _ => true end
  end.

(** [jsonpath(j, '$..key')]: the value of every member called [key], the
    node itself first and then its children in order (lists are entered,
    scalars are not). The library returns [False] for no match, which the
    callers only test with [not]; here that is the empty list. *)
Fixpoint descend (key : string) (j : Json) : list Json :=
  match j with
  | JObj members =>
      match member key members with Some v => [v] | None => [] end ++
      (fix children (ms : list (string * Json)) : list Json :=
         match ms with
         | [] => []
         | (_, v) :: rest => descend key v ++ children rest
         end) members
  | JArr items =>
      (fix children (vs : list Json) : list Json :=
         match vs with
         | [] => []
         | v :: rest => descend key v ++ children rest
         end) items
  | _ => []
  end.

(** The slice [[:]] applied to one match: all elements of a list. The quote
    service sends a list of lines here; a match that is not a list is taken
    to contribute nothing. *)
Definition slice_all (j : Json) : list Json :=
  match j with
  | JArr items => items
  | _ => []
  end.

(** [jsonpath(j, '$..klines[:]')]. *)
Definition jsonpath_klines (j : Json) : list Json :=
  flat_map slice_all (descend "klines" j).

(** [jsonpath(j, '$..name')]. *)
Definition jsonpath_name (j : Json) : list Json := descend "name" j.

(** A cell of a pandas object column: a decoded value ([JNull] is [None])
    or the float [nan]. [None] and [nan] are the missing markers. *)
Inductive Cell :=
| NaN
| Py (v : Json).

Definition Str (s : string) : Cell := Py (JStr s).
Definition Num (n : number) : Cell := Py (JNum n).
Definition PyNone : Cell := Py JNull.

(** ** Tables and records *)

(** A [pd.DataFrame] with a default index: column labels and rows. *)
Record DataFrame := {
  columns : list string;
  rows : list (list Cell);
}.

(** An index label of a [pd.Series]: a dict key, or a position when the
    series was built from a list or a scalar. *)
Inductive Label :=
| LStr (s : string)
| LInt (i : nat).

(** A [pd.Series]: labelled values. *)
Definition Series := list (Label * Cell).

(** Every row has one cell per column. *)
Definition well_formed (df : DataFrame) : Prop :=
  Forall (λ r, length r = length (columns df)) (rows df).

(** [pd.DataFrame(columns=cols)]. *)
Definition empty_frame (cols : list string) : DataFrame :=
  {| columns := cols; rows := [] |}.

(** The widest row; pandas pads the shorter ones with [None]. *)
Definition width (rs : list (list Cell)) : nat :=
  foldr (λ r w, Nat.max (length r) w) 0 rs.

Definition pad (w : nat) (r : list Cell) : list Cell :=
  r ++ replicate (w - length r) PyNone.

End Data.

Arguments Json {_}.
Arguments Cell {_}.
Arguments DataFrame {_}.
Arguments Series {_}.

(** ** Exceptions and results *)

(** The Python exceptions the getters can raise. All of them derive from
    [Exception], which is what [retry] catches. *)
Inductive exn :=
| ConnectionError          (* requests: the transport failed *)
| JSONDecodeError          (* [response.json()] on a body that is not JSON *)
| KeyError (key : string)  (* [d[key]] on a dict without [key] *)
| TypeError                (* subscript of a value that has none; bad argument type *)
| AttributeError           (* [.split] on a value that is not a [str] *)
| ValueError               (* pandas: shape mismatch, duplicate column *)
| ResolverError            (* raised by [get_quote_id] *)
| Unmodelled.              (* pandas behaviour outside the modelled fragment *)

Inductive result (A : Type) :=
| Ok (a : A)
| Raise (e : exn).
Arguments Ok {A} a.
Arguments Raise {A} e.

Definition result_bind {A B} (r : result A) (k : A → result B) : result B :=
  match r with
  | Ok a => k a
  | Raise e => Raise e
  end.

(** [[f(x) for x in xs]], stopping at the first exception. *)
Fixpoint result_map {A B} (f : A → result B) (xs : list A) : result (list B) :=
  match xs with
  | [] => Ok []
  | x :: rest =>
      result_bind (f x) (λ y, result_bind (result_map f rest) (λ ys, Ok (y :: ys)))
  end.

(** ** pandas constructors and the normaliser *)

Section Pandas.
Context `{Numeric}.

(** [pd.DataFrame(rs, columns=cols)] for a list of rows: short rows are
    padded with [None] up to the widest one, and a width other than the
    number of labels raises [ValueError]. *)
Definition frame_of_rows (rs : list (list Cell)) (cols : list string)
  : result DataFrame :=
  match rs with
  | [] => Ok (empty_frame cols)
  | _ =>
      if decide (width rs = length cols)
      then Ok {| columns := cols; rows := map (pad (width rs)) rs |}
      else Raise ValueError
  end.

(** The values [df.insert] puts into a new column of a frame with [n] rows:
    a scalar is repeated, a list must have [n] elements. What pandas does
    with a dict depends on its version and is not modelled. *)
Definition column_values (value : Json) (n : nat) : result (list Cell) :=
  match value with
  | JArr items =>
      if decide (length items = n) then Ok (map Py items) else Raise ValueError
  | JObj _ => Raise Unmodelled
  | scalar => Ok (replicate n (Py scalar))
  end.

(** A value that is neither a list nor a dict. *)
Definition scalar (value : Json) : Prop :=
  match value with
  | JArr _ | JObj _ => False
  | _ => True
  end.

(** [df.insert(0, col, value)]: a label already present raises
    [ValueError]. *)
Definition insert0 (col : string) (value : Json) (df : DataFrame)
  : result DataFrame :=
  if decide (col ∈ columns df) then Raise ValueError
  else
    result_bind (column_values value (length (rows df))) (λ cells,
      Ok {| columns := col :: columns df;
            rows := zip_with cons cells (rows df) |}).

(** [kline.split(',')] inside the list comprehension: only a [str] has
    [split]. *)
Definition split_kline (kline : Json) : result (list Cell) :=
  match kline with
  | JStr s => Ok (map Str (split ","%char s))
  | _ => Raise AttributeError
  end.

(** [j[key]] on a decoded value. *)
Definition subscript (j : Json) (key : string) : result Json :=
  match j with
  | JObj members =>
      match member key members with
      | Some v => Ok v
      | None => Raise (KeyError key)
      end
  | _ => Raise TypeError
  end.

(** Modelled from the spec: the decorator [to_numeric] of [efinance/utils],
    which the getters import but which is not among the sources. The
    specification (4.1) says: every field is converted to a numeric type; a
    field is left unchanged if any value in it cannot be parsed as a number
    (all or nothing per field); values already numeric are kept; text that is
    not numeric never raises. *)
Definition as_number (c : Cell) : option number :=
  match c with
  | Py (JNum n) => Some n
  | Py (JStr s) => parse_number s
  | _ => None
  end.

(** Modelled from the spec: the conversion of one value, which keeps a
    value that does not parse. *)
Definition convert (c : Cell) : Cell :=
  match as_number c with
  | Some n => Num n
  | None => c
  end.

(** Modelled from the spec: field [j] holds only values that parse. *)
Definition numeric_field (rs : list (list Cell)) (j : nat) : bool :=
  forallb (λ r, match r !! j with
                | Some c => bool_decide (is_Some (as_number c))
                | None => true
                end) rs.

(** Modelled from the spec: the fields that parse throughout the table
    [rs] are converted in the row [r], the others are left as they are. *)
Definition normalize_row (rs : list (list Cell)) (r : list Cell) : list Cell :=
  imap (λ j c, if numeric_field rs j then convert c else c) r.

(** Modelled from the spec: the normaliser on a Table. *)
Definition normalize_frame (df : DataFrame) : DataFrame :=
  {| columns := columns df;
     rows := map (normalize_row (rows df)) (rows df) |}.

(** Modelled from the spec: the normaliser on a single Record, whose fields
    hold one value each. *)
Definition normalize_series (s : Series) : Series :=
  map (λ lc, (lc.1, convert lc.2)) s.

End Pandas.

(** ** The remote service and the process state *)

(** One [session.get(url, headers=..., params=...)]. *)
Record Request := {
  url : string;
  headers : list (string * string);
  params : list (string * string);
}.

Section Service.
Context `{Numeric}.

(** What [session.get(...).json()] comes to: an exception (transport
    failure, body that is not JSON) or the decoded body. *)
Inductive Reply :=
| Fails (e : exn)
| Body (j : Json).

(** The state the getters run in: the log of the requests sent so far and
    the module-level dict [BASE_INFO_CACHE] of [efinance/shared]. *)
Record State := {
  log : list Request;
  BASE_INFO_CACHE : gmap string Series;
}.

(** A computation that may raise and may change the state. *)
Definition M (A : Type) : Type := State → result A * State.

Definition ret {A} (a : A) : M A := λ st, (Ok a, st).

Definition bind {A B} (m : M A) (k : A → M B) : M B :=
  λ st, match m st with
        | (Ok a, st') => k a st'
        | (Raise e, st') => (Raise e, st')
        end.

(** A pure step that may raise. *)
Definition lift {A} (r : result A) : M A := λ st, (r, st).

(** The request [rq] goes out: it is logged whatever the outcome. *)
Definition sent (rq : Request) (st : State) : State :=
  {| log := log st ++ [rq]; BASE_INFO_CACHE := BASE_INFO_CACHE st |}.

(** Number of network accesses so far. *)
Definition requests_sent (st : State) : nat := length (log st).

End Service.

Arguments Reply {_}.
Arguments State {_}.
Arguments M {_} A.

Notation "x <- m ;; k" := (bind m (λ x, k))
  (at level 100, m at next level, right associativity,
   format "'[v' x  <-  m ;;  '/' k ']'").

(** What the getters take from outside. The tables of
    [efinance/common/config], the request headers and the identifier resolver
    [get_quote_id] of [efinance/utils] are imported by the getters and are not
    among the sources; the field tables are dicts, given as their items in
    insertion order. [remote] is the quote service: it answers a request
    knowing the requests served before it. *)
Class Env `{Numeric} := {
  EASTMONEY_KLINE_FIELDS : list (string * string);
  EASTMONEY_HISTORY_BILL_FIELDS : list (string * string);
  EASTMONEY_BASE_INFO_FIELDS : list (string * string);
  EASTMONEY_REQUEST_HEADERS : list (string * string);
  get_quote_id : string → M string;
  remote : list Request → Request → Reply;
}.

(** ** The getters *)

Section Getters.
Context `{Env}.

(** [session.get(url, headers=headers, params=params).json()]. *)
Definition session_get_json (rq : Request) : M Json :=
  λ st,
    match remote (log st) rq with
    | Fails e => (Raise e, sent rq st)
    | Body j => (Ok j, sent rq st)
    end.

(** Modelled from the spec: the decorator [to_numeric] around a getter that
    returns a DataFrame; an exception of the getter passes through. *)
Definition to_numeric (f : M DataFrame) : M DataFrame :=
  df <- f ;; ret (normalize_frame df).

(** Modelled from the spec: the decorator [to_numeric] around a getter that
    returns a Series. *)
Definition to_numeric_series (f : M Series) : M Series :=
  s <- f ;; ret (normalize_series s).

(** The keyword arguments the callers pass on: [quote_id_mode] (tested for
    truth by the single-item getter) and [tries] (a parameter of the batch
    getter, one more ignored keyword for the single-item getter). *)
Record Kwargs := {
  quote_id_mode : bool;
  kw_tries : option Z;
}.

Definition kline_url : string :=
  "https://push2his.eastmoney.com/api/qt/stock/kline/get".

(** [json_response['data']['name']]. *)
Definition data_name (json_response : Json) : result Json :=
  result_bind (subscript json_response "data") (λ data, subscript data "name").

(** The request of [get_quote_history_single]; [f'{klt}'] is the decimal
    text of [klt]. *)
Definition kline_request (quote_id beg end_ : string) (klt fqt : Z) : Request :=
  let fields := map fst EASTMONEY_KLINE_FIELDS in
  let fields2 := join "," fields in
  {| url := kline_url;
     headers := EASTMONEY_REQUEST_HEADERS;
     params :=
       [("fields1", "f1,f2,f3,f4,f5,f6,f7,f8,f9,f10,f11,f12,f13");
        ("fields2", fields2);
        ("beg", beg);
        ("end", end_);
        ("rtntype", "6");
        ("secid", quote_id);
        ("klt", pretty klt);
        ("fqt", pretty fqt)] |}.

(** [quote_id = code if kwargs.get('quote_id_mode') else get_quote_id(code)]. *)
Definition quote_id_of (code : string) (kwargs : Kwargs) : M string :=
  if quote_id_mode kwargs then ret code else get_quote_id code.

(** The body of [get_quote_history_single], before the decorator. *)
Definition get_quote_history_single_body
    (code beg end_ : string) (klt fqt : Z) (kwargs : Kwargs) : M DataFrame :=
  let columns := map snd EASTMONEY_KLINE_FIELDS in
  quote_id <- quote_id_of code kwargs ;;
  json_response <- session_get_json (kline_request quote_id beg end_ klt fqt) ;;
  match jsonpath_klines json_response with
  | [] => ret (empty_frame ("名称" :: "代码" :: columns))
  | klines =>
      rows <- lift (result_map split_kline klines) ;;
      name <- lift (data_name json_response) ;;
      let code := last_piece (split "." quote_id) in
      df <- lift (frame_of_rows rows columns) ;;
      df <- lift (insert0 "代码" (JStr code) df) ;;
      df <- lift (insert0 "名称" name df) ;;
      ret df
  end.

(** [get_quote_history_single], as decorated. *)
Definition get_quote_history_single
    (code beg end_ : string) (klt fqt : Z) (kwargs : Kwargs) : M DataFrame :=
  to_numeric (get_quote_history_single_body code beg end_ klt fqt kwargs).

Definition bill_url : string :=
  "http://push2his.eastmoney.com/api/qt/stock/fflow/daykline/get".

(** [xs[0]] on the result of [jsonpath]: [False[0]] is a [TypeError]. *)
Definition first_match (xs : list Json) : result Json :=
  match xs with
  | [] => Raise TypeError
  | x :: _ => Ok x
  end.

(** The request of [get_history_bill]. *)
Definition bill_request (quote_id : string) : Request :=
  let fields := map fst EASTMONEY_HISTORY_BILL_FIELDS in
  let fields2 := join "," fields in
  {| url := bill_url;
     headers := EASTMONEY_REQUEST_HEADERS;
     params :=
       [("lmt", "100000");
        ("klt", "101");
        ("secid", quote_id);
        ("fields1", "f1,f2,f3,f7");
        ("fields2", fields2)] |}.

(** The body of [get_history_bill], before the decorator. *)
Definition get_history_bill_body (code : string) : M DataFrame :=
  let columns := map snd EASTMONEY_HISTORY_BILL_FIELDS in
  quote_id <- get_quote_id code ;;
  json_response <- session_get_json (bill_request quote_id) ;;
  match jsonpath_klines json_response with
  | [] => ret (empty_frame ("名称" :: "代码" :: columns))
  | klines =>
      rows <- lift (result_map split_kline klines) ;;
      name <- lift (first_match (jsonpath_name json_response)) ;;
      let code := last_piece (split "." quote_id) in
      df <- lift (frame_of_rows rows columns) ;;
      df <- lift (insert0 "代码" (JStr code) df) ;;
      df <- lift (insert0 "名称" name df) ;;
      ret df
  end.

(** [get_history_bill], as decorated. *)
Definition get_history_bill (code : string) : M DataFrame :=
  to_numeric (get_history_bill_body code).

Definition today_bill_url : string :=
  "http://push2.eastmoney.com/api/qt/stock/fflow/kline/get".

(** The request of [get_today_bill]. *)
Definition today_bill_request (quote_id : string) : Request :=
  {| url := today_bill_url;
     headers := EASTMONEY_REQUEST_HEADERS;
     params :=
       [("lmt", "0");
        ("klt", "1");
        ("secid", quote_id);
        ("fields1", "f1,f2,f3,f7");
        ("fields2", "f51,f52,f53,f54,f55,f56,f57,f58,f59,f60,f61,f62,f63")] |}.

Definition today_bill_columns : list string :=
  ["时间"; "主力净流入"; "小单净流入"; "中单净流入"; "大单净流入"; "超大单净流入"].

(** The body of [get_today_bill], before the decorator: here the name is
    read before the lines are looked at. *)
Definition get_today_bill_body (code : string) : M DataFrame :=
  quote_id <- get_quote_id code ;;
  json_response <- session_get_json (today_bill_request quote_id) ;;
  let columns := today_bill_columns in
  name <- lift (first_match (jsonpath_name json_response)) ;;
  let code := last_piece (split "." quote_id) in
  match jsonpath_klines json_response with
  | [] => ret (empty_frame ("名称" :: "代码" :: columns))
  | klines =>
      rows <- lift (result_map split_kline klines) ;;
      df <- lift (frame_of_rows rows columns) ;;
      df <- lift (insert0 "代码" (JStr code) df) ;;
      df <- lift (insert0 "名称" name df) ;;
      ret df
  end.

(** [get_today_bill], as decorated. *)
Definition get_today_bill (code : string) : M DataFrame :=
  to_numeric (get_today_bill_body code).

(** The declared schema of the two endpoints: the name and code labels,
    then the labels of the endpoint's field table. *)
Definition kline_schema : list string :=
  "名称" :: "代码" :: map snd EASTMONEY_KLINE_FIELDS.


(** *** Reference records and their cache *)

Definition base_info_url : string :=
  "http://push2.eastmoney.com/api/qt/stock/get".

(** [pd.Series(index=labels, dtype='object')]: every value is [nan]. *)
Definition empty_series (labels : list string) : Series :=
  map (λ l, (LStr l, NaN)) labels.

(** [pd.Series(items, dtype='object')] for a truthy [items]: a dict gives
    its members under their keys, a list its elements under their positions,
    a scalar itself under position 0. *)
Definition series_of (items : Json) : Series :=
  match items with
  | JObj members => map (λ kv, (LStr kv.1, Py kv.2)) members
  | JArr vs => imap (λ i v, (LInt i, Py v)) vs
  | scalar => [(LInt 0, Py scalar)]
  end.

(** [s.rename(index=table)]: a label that is a key of [table] is replaced,
    any other label is kept. *)
Definition rename_label (table : list (string * string)) (l : Label) : Label :=
  match l with
  | LStr k =>
      match list_find (λ kv, kv.1 = k) table with
      | Some (_, (_, v)) => LStr v
      | None => l
      end
  | LInt _ => l
  end.

Definition rename_index (table : list (string * string)) (s : Series) : Series :=
  map (λ lc, (rename_label table lc.1, lc.2)) s.

(** The request of [get_base_info]. *)
Definition base_info_request (quote_id : string) : Request :=
  let fields := join "," (map fst EASTMONEY_BASE_INFO_FIELDS) in
  {| url := base_info_url;
     headers := EASTMONEY_REQUEST_HEADERS;
     params :=
       [("ut", "fa5fd1943c7b386f172d6893dbfba10b");
        ("invt", "2");
        ("fltt", "2");
        ("fields", fields);
        ("secid", quote_id)] |}.

(** The body of [get_base_info], before the decorator. *)
Definition get_base_info_body (quote_id : string) : M Series :=
  json_response <- session_get_json (base_info_request quote_id) ;;
  items <- lift (subscript json_response "data") ;;
  if truthy items
  then ret (rename_index EASTMONEY_BASE_INFO_FIELDS (series_of items))
  else ret (empty_series (map snd EASTMONEY_BASE_INFO_FIELDS)).

(** [get_base_info], as decorated. *)
Definition get_base_info (quote_id : string) : M Series :=
  to_numeric_series (get_base_info_body quote_id).

(** [BASE_INFO_CACHE[quote_id] = base_info]. *)
Definition cache_store (quote_id : string) (base_info : Series) : M unit :=
  λ st, (Ok (),
         {| log := log st;
            BASE_INFO_CACHE := <[quote_id := base_info]> (BASE_INFO_CACHE st) |}).

(** The first two statements of [get_deal_detail], where the reference
    record of [quote_id] is obtained:
<<
    base_info = BASE_INFO_CACHE.get(quote_id, get_base_info(quote_id))
    BASE_INFO_CACHE[quote_id] = base_info
>>
    Python evaluates the arguments of a call before the call: the default
    [get_base_info(quote_id)] is computed (and may raise) before
    [dict.get] looks [quote_id] up. *)
Definition get_deal_detail_base_info (quote_id : string) : M Series :=
  fetched <- get_base_info quote_id ;;
  base_info <- (λ st, (Ok (default fetched (BASE_INFO_CACHE st !! quote_id)), st)) ;;
  _ <- cache_store quote_id base_info ;;
  ret base_info.

End Getters.

(** ** The batch orchestrator *)

Section Batch.
Context `{Env}.

(** The arguments of [get_quote_history_multi] other than [codes]. *)
Record BatchArgs := {
  beg : string;
  end_ : string;
  klt : Z;
  fqt : Z;
  tries : Z;
  kwargs : Kwargs;
}.

(** Where a unit of work (one call [start(code)], run in a thread of its own
    by [multitasking.task]) stands. [retry(tries=tries, delay=1)] runs
<<
    _tries = tries
    while _tries:
        try: return f()
        except Exception: _tries -= 1; if not _tries: raise; sleep(delay)
>>
    around the body of [start]. *)
Inductive UnitPC :=
| Trying (tries_left : Z)   (* at [while _tries:], the body not yet entered *)
| Fetched (df : DataFrame)  (* [_df] is bound, before [dfs[code] = _df] *)
| Stored                    (* before [pbar.update(1)] *)
| Updated                   (* before [pbar.set_description_str(...)] *)
| Finished                  (* [start] returned after a successful fetch *)
| Skipped                   (* the loop never ran ([tries = 0]): no fetch at all *)
| Died (e : exn).            (* [retry] re-raised: the thread ended with [e] *)

(** A unit of work; [attempts] counts its calls of
    [get_quote_history_single]. *)
Record Unit := {
  unit_code : string;
  pc : UnitPC;
  attempts : nat;
}.

Definition terminated (u : Unit) : bool :=
  match pc u with
  | Finished | Skipped | Died _ => true
  | _ => false
  end.

(** Where the calling thread stands. *)
Inductive MainPC :=
| Spawning (rest : list string)             (* in [for code in codes: start(code)] *)
| Joined                                    (* [wait_for_tasks()] returned *)
| Returned (result : gmap string DataFrame). (* after [pbar.close(); return dfs] *)

(** What the units share: the process state, the dict [dfs] and the progress
    bar [pbar]. *)
Record Shared := {
  state : State;
  dfs : gmap string DataFrame;
  pbar_n : nat;
  pbar_total : nat;
  pbar_desc : string;
  pbar_closed : bool;
}.

Record Batch := {
  shared : Shared;
  units : list Unit;
  main : MainPC;
}.

(** [dfs = {}; total = len(codes); ...; pbar = tqdm(total=total)], before the
    first [start(code)]. *)
Definition batch_init (st : State) (codes : list string) : Batch :=
  {| shared := {| state := st; dfs := ∅; pbar_n := 0;
                  pbar_total := length codes; pbar_desc := EmptyString;
                  pbar_closed := false |};
     units := [];
     main := Spawning codes |}.

Definition with_state (sh : Shared) (st : State) : Shared :=
  {| state := st; dfs := dfs sh; pbar_n := pbar_n sh;
     pbar_total := pbar_total sh; pbar_desc := pbar_desc sh;
     pbar_closed := pbar_closed sh |}.

Definition at_pc (u : Unit) (p : UnitPC) : Unit :=
  {| unit_code := unit_code u; pc := p; attempts := attempts u |}.

Definition attempted (u : Unit) (p : UnitPC) : Unit :=
  {| unit_code := unit_code u; pc := p; attempts := S (attempts u) |}.

(** [start(code)]: the unit of work the call launches. *)
Definition start (args : BatchArgs) (code : string) : Unit :=
  {| unit_code := code; pc := Trying (tries args); attempts := 0 |}.

(** One step of a unit; [None] once it has terminated. *)
Definition unit_step (args : BatchArgs) (sh : Shared) (u : Unit)
  : option (Shared * Unit) :=
  match pc u with
  | Trying t =>
      if decide (t = 0%Z) then Some (sh, at_pc u Skipped)
      else
        match get_quote_history_single (unit_code u) (beg args) (end_ args)
                (klt args) (fqt args) (kwargs args) (state sh) with
        | (Ok df, st') => Some (with_state sh st', attempted u (Fetched df))
        | (Raise e, st') =>
            Some (with_state sh st',
                  attempted u (if decide ((t - 1)%Z = 0%Z) then Died e
                               else Trying (t - 1)))
        end
  | Fetched df =>
      Some ({| state := state sh; dfs := <[unit_code u := df]> (dfs sh);
               pbar_n := pbar_n sh; pbar_total := pbar_total sh;
               pbar_desc := pbar_desc sh; pbar_closed := pbar_closed sh |},
            at_pc u Stored)
  | Stored =>
      Some ({| state := state sh; dfs := dfs sh;
               pbar_n := pbar_n sh + 1; pbar_total := pbar_total sh;
               pbar_desc := pbar_desc sh; pbar_closed := pbar_closed sh |},
            at_pc u Updated)
  | Updated =>
      Some ({| state := state sh; dfs := dfs sh;
               pbar_n := pbar_n sh; pbar_total := pbar_total sh;
               pbar_desc := "Processing => " +:+ unit_code u;
               pbar_closed := pbar_closed sh |},
            at_pc u Finished)
  | Finished | Skipped | Died _ => None
  end.

(** One step of the calling thread: start the next unit; leave
    [multitasking.wait_for_tasks()], which blocks until every started thread
    has ended; close the bar and return [dfs]. *)
Definition main_step (args : BatchArgs) (b : Batch) : option Batch :=
  match main b with
  | Spawning (code :: rest) =>
      Some {| shared := shared b;
              units := units b ++ [start args code];
              main := Spawning rest |}
  | Spawning [] =>
      if forallb terminated (units b)
      then Some {| shared := shared b; units := units b; main := Joined |}
      else None
  | Joined =>
      Some {| shared := {| state := state (shared b); dfs := dfs (shared b);
                           pbar_n := pbar_n (shared b);
                           pbar_total := pbar_total (shared b);
                           pbar_desc := pbar_desc (shared b);
                           pbar_closed := true |};
              units := units b;
              main := Returned (dfs (shared b)) |}
  | Returned _ => None
  end.

(** The interleavings of [get_quote_history_multi]: at each step the calling
    thread or any one unit moves. *)
Inductive step (args : BatchArgs) : Batch → Batch → Prop :=
| step_main b b' :
    main_step args b = Some b' →
    step args b b'
| step_unit b i u sh' u' :
    units b !! i = Some u →
    unit_step args (shared b) u = Some (sh', u') →
    step args b {| shared := sh'; units := <[i := u']> (units b); main := main b |}.

(** A schedule says who moves: the calling thread ([None]) or the unit
    started [i]-th ([Some i]). *)
Definition move (args : BatchArgs) (who : option nat) (b : Batch) : option Batch :=
  match who with
  | None => main_step args b
  | Some i =>
      u ← units b !! i;
      '(sh', u') ← unit_step args (shared b) u;
      Some {| shared := sh'; units := <[i := u']> (units b); main := main b |}
  end.

(** Running a schedule; a move that is not enabled is passed over. *)
Fixpoint run (args : BatchArgs) (schedule : list (option nat)) (b : Batch)
  : Batch :=
  match schedule with
  | [] => b
  | who :: later => run args later (default b (move args who b))
  end.

(** The schedule that starts every unit, then lets the units run to their
    end one after the other, then joins and returns. A unit that starts with
    [t >= 0] tries left ends within [t + 3] steps. *)
Definition sequential (args : BatchArgs) (codes : list string)
  : list (option nat) :=
  replicate (length codes) None ++
  flat_map (λ i, replicate (Z.to_nat (tries args) + 3) (Some i))
           (seq 0 (length codes)) ++
  [None; None].

(** *** Vocabulary for the properties of a batch *)

(** The unit has written its table into [dfs]. *)
Definition stored (u : Unit) : bool :=
  match pc u with
  | Stored | Updated | Finished => true
  | _ => false
  end.

(** The unit has advanced the progress bar. *)
Definition counted (u : Unit) : bool :=
  match pc u with
  | Updated | Finished => true
  | _ => false
  end.

(** The unit ended after a successful fetch. *)
Definition succeeded (u : Unit) : bool :=
  match pc u with
  | Finished => true
  | _ => false
  end.

(** The codes whose unit has not been started yet. *)
Definition pending (m : MainPC) : list string :=
  match m with
  | Spawning rest => rest
  | _ => []
  end.

(** How the attempts a unit has made relate to where it stands, for a
    batch called with [n] tries. *)
Definition attempts_ok (n : Z) (u : Unit) : Prop :=
  match pc u with
  | Trying t =>
      t = (n - Z.of_nat (attempts u))%Z ∧
      (attempts u ≠ 0 → t ≠ 0%Z) ∧
      (0 ≤ n → 0 ≤ t)%Z
  | Fetched _ | Stored | Updated | Finished =>
      1 ≤ attempts u ∧ (0 ≤ n → Z.of_nat (attempts u) ≤ n)%Z
  | Skipped => attempts u = 0 ∧ n = 0%Z
  | Died _ => Z.of_nat (attempts u) = n
  end.

(** The unit has not got a table (yet, or ever). *)
Definition unfetched (u : Unit) : bool :=
  match pc u with
  | Trying _ | Skipped | Died _ => true
  | _ => false
  end.

(** A bound on the steps a unit still takes, and on those the whole batch
    still takes, when [tries] is not negative. *)
Definition unit_fuel (u : Unit) : nat :=
  match pc u with
  | Trying t => Z.to_nat t + 4
  | Fetched _ => 3
  | Stored => 2
  | Updated => 1
  | Finished | Skipped | Died _ => 0
  end.

Definition main_fuel (args : BatchArgs) (m : MainPC) : nat :=
  match m with
  | Spawning rest => length rest * (Z.to_nat (tries args) + 5) + 2
  | Joined => 1
  | Returned _ => 0
  end.

Definition fuel (args : BatchArgs) (b : Batch) : nat :=
  sum_list_with unit_fuel (units b) + main_fuel args (main b).

(** ** The dispatch facade *)

(** What a caller can pass as [codes]: a [str], a list or a tuple of [str],
    or something that is neither a [str] nor iterable. *)
Inductive Arg :=
| ArgStr (s : string)
| ArgList (l : list string)
| ArgTuple (l : list string)
| ArgInt (z : Z)
| ArgNone.

(** [isinstance(codes, str)]. *)
Definition isinstance_str (codes : Arg) : bool :=
  match codes with
  | ArgStr _ => true
  | _ => false
  end.

(** [hasattr(codes, '__iter__')]: a [str] is iterable too. *)
Definition has_iter (codes : Arg) : bool :=
  match codes with
  | ArgStr _ | ArgList _ | ArgTuple _ => true
  | ArgInt _ | ArgNone => false
  end.

(** [list(codes)] for a list or a tuple. *)
Definition to_list (codes : Arg) : list string :=
  match codes with
  | ArgList l | ArgTuple l => l
  | _ => []
  end.

(** How a call of [get_quote_history] ends. *)
Inductive Outcome :=
| Table (df : DataFrame)
| ResultMap (m : gmap string DataFrame)
| Raised (e : exn).

Definition outcome_of (r : result DataFrame) : Outcome :=
  match r with
  | Ok df => Table df
  | Raise e => Raised e
  end.

(** [get_quote_history_multi(codes, beg, end, klt, fqt, tries, **kwargs)]:
    any interleaving that reaches the [return]. *)
Definition get_quote_history_multi (codes : list string) (args : BatchArgs)
    (st : State) (m : gmap string DataFrame) (st' : State) : Prop :=
  ∃ b, rtc (step args) (batch_init st codes) b ∧
       main b = Returned m ∧ state (shared b) = st'.

(** The arguments the facade hands to the batch getter: [tries] is 3 unless
    the caller passed it among the keywords. *)
Definition batch_args (beg end_ : string) (klt fqt : Z) (kw : Kwargs) : BatchArgs :=
  {| beg := beg; end_ := end_; klt := klt; fqt := fqt;
     tries := default 3%Z (kw_tries kw); kwargs := kw |}.

(** [get_quote_history(codes, beg, end, klt, fqt, **kwargs)]: the three
    branches, in the order of the source. *)
Inductive get_quote_history (codes : Arg) (beg end_ : string) (klt fqt : Z)
    (kw : Kwargs) (st : State) : Outcome → State → Prop :=
| dispatch_single s r st' :
    codes = ArgStr s →
    get_quote_history_single s beg end_ klt fqt kw st = (r, st') →
    get_quote_history codes beg end_ klt fqt kw st (outcome_of r) st'
| dispatch_multi m st' :
    isinstance_str codes = false →
    has_iter codes = true →
    get_quote_history_multi (to_list codes) (batch_args beg end_ klt fqt kw) st m st' →
    get_quote_history codes beg end_ klt fqt kw st (ResultMap m) st'
| dispatch_type_error :
    isinstance_str codes = false →
    has_iter codes = false →
    get_quote_history codes beg end_ klt fqt kw st (Raised TypeError) st.

End Batch.

(** ** Concrete services, used as test inputs *)

(** Whole numbers in decimal, with an optional minus sign. *)
Definition digit (c : Ascii.ascii) : option Z :=
  let n := Ascii.N_of_ascii c in
  if ((48 <=? n) && (n <=? 57))%N then Some (Z.of_N (n - 48)) else None.

Fixpoint digits (s : string) (acc : Z) : option Z :=
  match s with
  | EmptyString => Some acc
  | String c rest =>
      match digit c with
      | Some d => digits rest (10 * acc + d)%Z
      | None => None
      end
  end.

Definition parse_decimal (s : string) : option Z :=
  match s with
  | EmptyString => None
  | String "-" EmptyString => None
  | String "-" rest => Z.opp <$> digits rest 0
  | _ => digits s 0
  end.

Definition decimal_numbers : Numeric :=
  {| number := Z; parse_number := parse_decimal; is_zero := Z.eqb 0 |}.

Module Sample.
#[local] Existing Instance decimal_numbers.

Definition kline_fields : list (string * string) :=
  [("f51", "日期"); ("f52", "开盘"); ("f53", "收盘")].

Definition bill_fields : list (string * string) :=
  [("f51", "日期"); ("f52", "主力净流入")].

Definition base_info_fields : list (string * string) :=
  [("f57", "代码"); ("f58", "名称")].

(** [params['secid']] of a request. *)
Definition secid (rq : Request) : string :=
  default EmptyString
    (snd <$> (snd <$> list_find (λ kv, kv.1 = "secid") (params rq))).

Definition payload (name : string) (klines : list string) : Json :=
  JObj [("rc", JNum 0%Z);
        ("data", JObj [("code", JStr "000001");
                       ("name", JStr name);
                       ("klines", JArr (map JStr klines))])].

(** The payload for an instrument without data. *)
Definition no_data : Json := JObj [("rc", JNum 0%Z); ("data", JNull)].

Definition ping_an_lines : list string :=
  ["2021-01-04,19.10,18.60"; "2021-01-05,18.40,18.17"].

(** The table of the two lines of Ping An, before it is normalised. *)
Definition ping_an_raw : DataFrame :=
  {| columns := ["名称"; "代码"; "日期"; "开盘"; "收盘"];
     rows := [[Str "Ping An"; Str "000001"; Str "2021-01-04"; Str "19.10"; Str "18.60"];
              [Str "Ping An"; Str "000001"; Str "2021-01-05"; Str "18.40"; Str "18.17"]] |}.

(** The reference record of Ping An, as normalised. *)
Definition ping_an_info : Series :=
  [(LStr "代码", Num 1%Z); (LStr "名称", Str "Ping An")].

(** A service that knows two instruments, reports no data for ["0.000000"]
    and drops the connection for anything else. *)
Definition quotes (served : list Request) (rq : Request) : Reply :=
  if decide (url rq = base_info_url)
  then Body (JObj [("data", JObj [("f57", JStr "000001"); ("f58", JStr "Ping An")])])
  else if decide (secid rq = "1.000001")
  then Body (payload "Ping An" ping_an_lines)
  else if decide (secid rq = "0.399001")
  then Body (payload "SZ Index" ["2021-01-04,14500,14800"])
  else if decide (secid rq = "0.000000")
  then Body no_data
  else Fails ConnectionError.

(** A service that is unreachable. *)
Definition unreachable (served : list Request) (rq : Request) : Reply :=
  Fails ConnectionError.

(** A resolver that takes its input for a quote id as it is. *)
Definition resolve_verbatim (code : string) : M string := ret code.

Definition env (service : list Request → Request → Reply) : Env :=
  {| EASTMONEY_KLINE_FIELDS := kline_fields;
     EASTMONEY_HISTORY_BILL_FIELDS := bill_fields;
     EASTMONEY_BASE_INFO_FIELDS := base_info_fields;
     EASTMONEY_REQUEST_HEADERS := [("User-Agent", "Mozilla/5.0")];
     get_quote_id := resolve_verbatim;
     remote := service |}.

Definition fresh : State := {| log := []; BASE_INFO_CACHE := ∅ |}.

Definition no_kwargs : Kwargs := {| quote_id_mode := false; kw_tries := None |}.

Definition default_args : BatchArgs :=
  {| beg := "19000101"; end_ := "20500101"; klt := 101; fqt := 1;
     tries := 3; kwargs := no_kwargs |}.

Definition three_codes : list string := ["1.000001"; "0.399001"; "BADID"].

(** The units of [n] codes taking turns, [k] rounds, between the starts and
    the join. *)
Definition round_robin (n k : nat) : list (option nat) :=
  replicate n None ++ mjoin (replicate k (Some <$> seq 0 n)) ++ [None; None].

(** A batch of three codes against [quotes], the units taking turns. *)
Definition quotes_batch : Batch :=
  @run _ (env quotes) default_args (round_robin 3 6) (batch_init fresh three_codes).

(** A batch of one code against [unreachable]. *)
Definition down_batch : Batch :=
  @run _ (env unreachable) default_args (sequential default_args ["BADID"])
       (batch_init fresh ["BADID"]).

(** Single fetches against [quotes]: an instrument with data and one
    without. *)
Definition fetch_with_data : result DataFrame * State :=
  @get_quote_history_single _ (env quotes)
    "1.000001" "19000101" "20500101" 101 1 no_kwargs fresh.

Definition fetch_without_data : result DataFrame * State :=
  @get_quote_history_single _ (env quotes)
    "0.000000" "19000101" "20500101" 101 1 no_kwargs fresh.

(** Two lookups of the same reference record in a row, and a third one
    after the service has gone away. *)
Definition first_lookup : result Series * State :=
  @get_deal_detail_base_info _ (env quotes) "1.000001" fresh.

Definition second_lookup : result Series * State :=
  @get_deal_detail_base_info _ (env quotes) "1.000001" first_lookup.2.

Definition lookup_when_down : result Series * State :=
  @get_deal_detail_base_info _ (env unreachable) "1.000001" first_lookup.2.

Definition quotes_env : Env := env quotes.

Definition unreachable_env : Env := env unreachable.

End Sample.

(** ** More vocabulary and test inputs *)

(** The character [sep] occurs in [s]. *)
Fixpoint occurs (sep : Ascii.ascii) (s : string) : bool :=
  match s with
  | EmptyString => false
  | String c rest => Ascii.eqb c sep || occurs sep rest
  end.

(** The number of comma-separated pieces of the line with the most of
    them. *)
Definition widest (lines : list string) : nat :=
  foldr (λ line w, Nat.max (length (split "," line)) w) 0 lines.

(** What the three k-line getters make of the lines [klines] of a payload,
    once the request has been answered: the steps after [if not klines], in
    the order of [get_quote_history_single] and [get_history_bill], where
    [name] is the outcome of reading the name. *)
Definition table_of_lines `{Numeric} (cols : list string) (name : result Json)
    (quote_id : string) (klines : list Json) : result DataFrame :=
  result_bind (result_map split_kline klines) (λ rows,
  result_bind name (λ name,
  result_bind (frame_of_rows rows cols) (λ df,
  result_bind (insert0 "代码" (JStr (last_piece (split "." quote_id))) df) (λ df,
  result_bind (insert0 "名称" name df) (λ df,
  Ok (normalize_frame df)))))).

(** The attempts of all units together. *)
Definition total_attempts `{Env} (us : list Unit) : nat :=
  sum_list_with attempts us.

(** Some call of [get_quote_history_single] for [code], with the arguments
    of the batch, returned the table [df]. *)
Definition fetched_for `{Env} (args : BatchArgs) (code : string) (df : DataFrame)
  : Prop :=
  ∃ s s', get_quote_history_single code (beg args) (end_ args) (klt args)
            (fqt args) (kwargs args) s = (Ok df, s').

(** Some call of [get_quote_history_single] for [code], with the arguments
    of the batch, raised [e]. *)
Definition raised_for `{Env} (args : BatchArgs) (code : string) (e : exn) : Prop :=
  ∃ s s', get_quote_history_single code (beg args) (end_ args) (klt args)
            (fqt args) (kwargs args) s = (Raise e, s').

(** More services and batches, used as test inputs. *)
Module Cases.
#[local] Existing Instance decimal_numbers.

Definition bill_lines : list string := ["2021-01-04,1200"; "2021-01-05,-300"].

Definition today_lines : list string := ["2021-01-05 09:31,1,2,3,4,5"].

(** Lines of two and of four pieces, for a table of three fields. *)
Definition ragged : Json := Sample.payload "Ragged" ["a,b"; "a,b,c,d"].

(** Lines at the top of the payload, no [data], a name somewhere else. *)
Definition nameless : Json :=
  JObj [("klines", JArr [JStr "2021-01-04,1,2"]);
        ("info", JObj [("name", JStr "Elsewhere")])].

(** A line that is a number. *)
Definition a_number : Json := JNum 1%Z.

Definition not_text : Json :=
  JObj [("data", JObj [("name", JStr "Odd"); ("klines", JArr [a_number])])].

(** A payload that is a dict without [data]. *)
Definition no_data_key : list (string * Json) := [("rc", JNum 102%Z)].

(** A service for the flow endpoints and for malformed k-line payloads. *)
Definition feeds (served : list Request) (rq : Request) : Reply :=
  if decide (url rq = bill_url)
  then Body (if decide (Sample.secid rq = "3.000003") then nameless
             else Sample.payload "Ping An" bill_lines)
  else if decide (url rq = today_bill_url)
  then Body (if decide (Sample.secid rq = "0.000000") then Sample.no_data
             else Sample.payload "Ping An" today_lines)
  else if decide (url rq = base_info_url)
  then Body (if decide (Sample.secid rq = "0.000000") then Sample.no_data
             else JObj no_data_key)
  else if decide (Sample.secid rq = "2.000002") then Body ragged
  else if decide (Sample.secid rq = "3.000003") then Body nameless
  else if decide (Sample.secid rq = "4.000004") then Body not_text
  else Fails ConnectionError.

(** A service that has one line for every instrument. *)
Definition generous (served : list Request) (rq : Request) : Reply :=
  Body (Sample.payload "Any" ["2021-01-04,1,2"]).

Definition feeds_env : Env := Sample.env feeds.

Definition generous_env : Env := Sample.env generous.

Definition verbatim : Kwargs := {| quote_id_mode := true; kw_tries := None |}.

Definition verbatim_args : BatchArgs :=
  {| beg := "19000101"; end_ := "20500101"; klt := 101; fqt := 1;
     tries := 3; kwargs := verbatim |}.

Definition no_tries : BatchArgs :=
  {| beg := "19000101"; end_ := "20500101"; klt := 101; fqt := 1;
     tries := 0; kwargs := Sample.no_kwargs |}.

(** The three codes against [Sample.quotes], with [quote_id_mode]. *)
Definition verbatim_batch : Batch :=
  @run _ Sample.quotes_env verbatim_args (Sample.round_robin 3 6)
       (batch_init Sample.fresh Sample.three_codes).

(** The three codes against [Sample.quotes], with [tries = 0]. *)
Definition idle_batch : Batch :=
  @run _ Sample.quotes_env no_tries (Sample.round_robin 3 6)
       (batch_init Sample.fresh Sample.three_codes).

(** The three codes against [generous], one unit after the other. *)
Definition generous_batch : Batch :=
  @run _ generous_env Sample.default_args
       (sequential Sample.default_args Sample.three_codes)
       (batch_init Sample.fresh Sample.three_codes).

(** The three codes against [Sample.quotes], one unit after the other. *)
Definition sequential_batch : Batch :=
  @run _ Sample.quotes_env Sample.default_args
       (sequential Sample.default_args Sample.three_codes)
       (batch_init Sample.fresh Sample.three_codes).

End Cases.

(** ** Case analysis on the steps of a batch *)

(** The three ways the calling thread moves. *)
Ltac main_step_cases Hm b :=
  unfold main_step in Hm;
  destruct (main b) as [[|?code ?rest]| |?m] eqn:?Hmain;
  [ destruct (forallb terminated (units b)) eqn:?Hended; [|discriminate Hm]
  | | | discriminate Hm ];
  injection Hm as <-.

(** The seven ways a unit moves. *)
Ltac unit_step_cases Hu u :=
  unfold unit_step in Hu;
  destruct u as [?code ?p ?n]; simpl in Hu;
  match type of Hu with
  | context [match ?p with _ => _ end] =>
      destruct p as [?t|?df| | | | |?e];
      [ destruct (decide (t = 0%Z)) as [->|?Hleft];
        [ | destruct (get_quote_history_single _ _ _ _ _ _ _)
              as [[?df|?e] ?st'] eqn:?Hfetch;
            [ | destruct (decide ((t - 1)%Z = 0%Z)) as [?Hlast|?Hmore] ] ]
      | | | | discriminate Hu | discriminate Hu | discriminate Hu ]
  end;
  injection Hu as <- <-.


(** * Part II. Properties *)

(** ** The normaliser *)

Section NormalizerFacts.
Context `{Numeric}.

Lemma as_number_convert (c : Cell) :
  as_number (convert c) = as_number c.
Proof.
  unfold convert. destruct (as_number c) as [n|] eqn:E; [reflexivity | exact E].
Qed.

Lemma convert_convert (c : Cell) : convert (convert c) = convert c.
Proof.
  unfold convert at 1. rewrite as_number_convert.
  unfold convert. destruct (as_number c); reflexivity.
Qed.

Lemma normalize_row_lookup (rs : list (list Cell)) (r : list Cell) (j : nat) :
  normalize_row rs r !! j =
  (λ c, if numeric_field rs j then convert c else c) <$> r !! j.
Proof. unfold normalize_row. apply list_lookup_imap. Qed.

Lemma normalize_row_length (rs : list (list Cell)) (r : list Cell) :
  length (normalize_row rs r) = length r.
Proof. unfold normalize_row. apply length_imap. Qed.

(** Whether a field parses does not change when some fields are converted. *)
Lemma numeric_field_normalize (rs0 rs : list (list Cell)) (j : nat) :
  numeric_field (map (normalize_row rs0) rs) j = numeric_field rs j.
Proof.
  unfold numeric_field. induction rs as [|r rs IH]; [reflexivity|].
  simpl. rewrite IH. f_equal.
  rewrite normalize_row_lookup. destruct (r !! j) as [c|]; [simpl | reflexivity].
  destruct (numeric_field rs0 j); [| reflexivity].
  rewrite as_number_convert. reflexivity.
Qed.

Lemma normalize_row_twice (rs rs' : list (list Cell)) (r : list Cell) :
  (∀ j, numeric_field rs' j = numeric_field rs j) →
  normalize_row rs' (normalize_row rs r) = normalize_row rs r.
Proof.
  intros Hsame. apply list_eq. intros j.
  rewrite !normalize_row_lookup. destruct (r !! j) as [c|]; [simpl | reflexivity].
  rewrite Hsame. destruct (numeric_field rs j); [| reflexivity].
  rewrite convert_convert. reflexivity.
Qed.

Lemma normalize_frame_columns (df : DataFrame) :
  columns (normalize_frame df) = columns df.
Proof. reflexivity. Qed.

Lemma normalize_frame_rows_length (df : DataFrame) :
  length (rows (normalize_frame df)) = length (rows df).
Proof. simpl. apply length_map. Qed.

Lemma normalize_frame_well_formed (df : DataFrame) :
  well_formed df → well_formed (normalize_frame df).
Proof.
  unfold well_formed. simpl. intros Hwf.
  apply Forall_map. eapply Forall_impl; [exact Hwf|].
  intros r Hr. simpl. rewrite normalize_row_length. exact Hr.
Qed.

(** Each cell of the normalised table is the cell it came from, or the
    number that cell parses to. *)
Lemma normalize_frame_cell (df : DataFrame) (i j : nat) (r : list Cell) (c : Cell) :
  rows df !! i = Some r → r !! j = Some c →
  ∃ r', rows (normalize_frame df) !! i = Some r' ∧
        (r' !! j = Some c ∨ r' !! j = Some (convert c)).
Proof.
  intros Hr Hc. exists (normalize_row (rows df) r). split.
  - simpl. rewrite list_lookup_fmap, Hr. reflexivity.
  - rewrite normalize_row_lookup, Hc. simpl.
    destruct (numeric_field (rows df) j); [right | left]; reflexivity.
Qed.

Lemma normalize_series_twice (s : Series) :
  normalize_series (normalize_series s) = normalize_series s.
Proof.
  unfold normalize_series. rewrite <- list_fmap_compose.
  apply list_fmap_ext. intros _ [l c] _. simpl.
  rewrite convert_convert. reflexivity.
Qed.

(** C7. The normaliser is idempotent: a second pass over a table gives the
    table the first pass gave. *)
Theorem normalize_frame_idempotent (df : DataFrame) :
  normalize_frame (normalize_frame df) = normalize_frame df.
Proof.
  unfold normalize_frame. simpl. f_equal.
  rewrite <- list_fmap_compose. apply list_fmap_ext.
  intros _ r _. simpl. apply normalize_row_twice.
  intros j. apply numeric_field_normalize.
Qed.

End NormalizerFacts.

(** ** pandas constructors *)

Section PandasFacts.
Context `{Numeric}.

Lemma width_bounds (rs : list (list Cell)) :
  Forall (λ r, length r ≤ width rs) rs.
Proof.
  induction rs as [|r rs IH]; [constructor|].
  constructor; [simpl; lia|].
  eapply Forall_impl; [exact IH|]. simpl. intros; lia.
Qed.

Lemma pad_length (w : nat) (r : list Cell) :
  length r ≤ w → length (pad w r) = w.
Proof. intros Hle. unfold pad. rewrite length_app, length_replicate. lia. Qed.

Lemma frame_of_rows_ok (rs : list (list Cell)) (cols : list string) (df : DataFrame) :
  frame_of_rows rs cols = Ok df →
  columns df = cols ∧ rows df = map (pad (length cols)) rs ∧
  Forall (λ r, length r ≤ length cols) rs.
Proof.
  unfold frame_of_rows. destruct rs as [|r rs].
  - intros [= <-]. repeat split. constructor.
  - case_decide as Hw; [|discriminate]. intros [= <-]. simpl columns. simpl rows.
    rewrite <- Hw. repeat split. apply width_bounds.
Qed.

Lemma column_values_length (value : Json) (n : nat) (cells : list Cell) :
  column_values value n = Ok cells → length cells = n.
Proof.
  unfold column_values.
  destruct value; try (intros [= <-]; apply length_replicate); try discriminate.
  case_decide; [|discriminate]. intros [= <-]. rewrite length_map. assumption.
Qed.

Lemma column_values_scalar (value : Json) (n : nat) (cells : list Cell) :
  scalar value → column_values value n = Ok cells → cells = replicate n (Py value).
Proof.
  destruct value; simpl; try contradiction; intros _ [= <-]; reflexivity.
Qed.

Lemma insert0_ok (col : string) (value : Json) (df df' : DataFrame) :
  insert0 col value df = Ok df' →
  ∃ cells, column_values value (length (rows df)) = Ok cells ∧
           columns df' = col :: columns df ∧
           rows df' = zip_with cons cells (rows df).
Proof.
  unfold insert0. case_decide; [discriminate|].
  destruct (column_values value (length (rows df))) as [cells|e] eqn:E;
    simpl; [|discriminate].
  intros [= <-]. exists cells. repeat split.
Qed.

Lemma split_kline_ok (klines : list Json) (rs : list (list Cell)) :
  result_map split_kline klines = Ok rs →
  ∃ lines, klines = map JStr lines ∧
           rs = map (λ line, map Str (split "," line)) lines.
Proof.
  revert rs. induction klines as [|k klines IH]; intros rs.
  - intros [= <-]. exists []. split; reflexivity.
  - simpl. destruct k; simpl; try discriminate.
    destruct (result_map split_kline klines) as [rs'|e]; simpl; [|discriminate].
    intros [= <-]. destruct (IH rs' eq_refl) as (lines & -> & ->).
    exists (s :: lines). split; reflexivity.
Qed.

End PandasFacts.

(** ** The single-item getters *)

Section GetterFacts.
Context `{Env}.

Lemma bind_ok {A B} (m : M A) (k : A → M B) (st st' : State) (b : B) :
  bind m k st = (Ok b, st') →
  ∃ a st1, m st = (Ok a, st1) ∧ k a st1 = (Ok b, st').
Proof.
  unfold bind. destruct (m st) as [[a|e] st1]; [|discriminate].
  intros Hk. exists a, st1. split; [reflexivity | exact Hk].
Qed.

Lemma lift_ok {A} (r : result A) (st st' : State) (a : A) :
  lift r st = (Ok a, st') → r = Ok a ∧ st' = st.
Proof. unfold lift. intros [= -> ->]. split; reflexivity. Qed.

Lemma session_get_json_body (rq : Request) (st : State) (j : Json) :
  remote (log st) rq = Body j → session_get_json rq st = (Ok j, sent rq st).
Proof. intros Hr. unfold session_get_json. rewrite Hr. reflexivity. Qed.

Lemma session_get_json_ok (rq : Request) (st st' : State) (j : Json) :
  session_get_json rq st = (Ok j, st') →
  remote (log st) rq = Body j ∧ st' = sent rq st.
Proof.
  unfold session_get_json. destruct (remote (log st) rq); [discriminate|].
  intros [= -> ->]. split; reflexivity.
Qed.

Lemma to_numeric_ok (f : M DataFrame) (st st' : State) (df : DataFrame) :
  to_numeric f st = (Ok df, st') →
  ∃ raw, f st = (Ok raw, st') ∧ df = normalize_frame raw.
Proof.
  unfold to_numeric. intros Hb.
  apply bind_ok in Hb as (raw & st1 & Hf & Hret).
  unfold ret in Hret. injection Hret as <- <-. exists raw. split; [exact Hf | reflexivity].
Qed.

(** The table the getters build from a non-empty list of lines, before it
    is normalised: one row per line, the name and the code in front. *)
Lemma rows_of_klines (cols : list string) (klines : list Json) (name : Json)
    (code : string) (rs : list (list Cell)) (df0 df1 df2 : DataFrame) :
  result_map split_kline klines = Ok rs →
  frame_of_rows rs cols = Ok df0 →
  insert0 "代码" (JStr code) df0 = Ok df1 →
  insert0 "名称" name df1 = Ok df2 →
  ∃ lines names,
    klines = map JStr lines ∧
    column_values name (length lines) = Ok names ∧
    columns df2 = "名称" :: "代码" :: cols ∧
    rows df2 =
      zip_with (λ nm line,
                  nm :: Str code :: pad (length cols) (map Str (split "," line)))
               names lines ∧
    well_formed df2.
Proof.
  intros Hsplit Hframe Hcode Hname.
  apply split_kline_ok in Hsplit as (lines & -> & ->).
  apply frame_of_rows_ok in Hframe as (Hc0 & Hr0 & Hw0).
  apply insert0_ok in Hcode as (codes & Hcodes & Hc1 & Hr1).
  apply insert0_ok in Hname as (names & Hnames & Hc2 & Hr2).
  assert (Hn0 : length (rows df0) = length lines) by (rewrite Hr0, !length_map; reflexivity).
  apply column_values_scalar in Hcodes as ->; [|exact I].
  assert (Hr1' : rows df1 = map (λ line, Str code :: pad (length cols) (map Str (split "," line))) lines).
  { rewrite Hr1, Hn0, Hr0.
    clear. induction lines as [|l lines IH]; [reflexivity|]. simpl. f_equal. exact IH. }
  assert (Hn1 : length (rows df1) = length lines) by (rewrite Hr1', length_map; reflexivity).
  rewrite Hn1 in Hnames. exists lines, names.
  split; [reflexivity|]. split; [exact Hnames|].
  split; [rewrite Hc2, Hc1, Hc0; reflexivity|].
  assert (Hrows : rows df2 =
    zip_with (λ nm line, nm :: Str code :: pad (length cols) (map Str (split "," line)))
             names lines).
  { rewrite Hr2, Hr1'. clear. revert names.
    induction lines as [|l lines IH]; intros [|n names]; simpl; try reflexivity.
    f_equal. apply IH. }
  split; [exact Hrows|].
  unfold well_formed. rewrite Hrows, Hc2, Hc1, Hc0.
  rewrite Forall_map in Hw0.
  clear - Hw0. revert names. induction Hw0 as [|l lines Hl Hw IH]; intros [|n names];
    simpl; try constructor.
  - simpl. rewrite pad_length; [reflexivity | exact Hl].
  - apply IH.
Qed.

(** What a successful run of the body of [get_quote_history_single] went
    through. *)
Lemma get_quote_history_single_body_ok code beg end_ klt fqt kw st raw st' :
  get_quote_history_single_body code beg end_ klt fqt kw st = (Ok raw, st') →
  ∃ quote_id st1 j,
    quote_id_of code kw st = (Ok quote_id, st1) ∧
    remote (log st1) (kline_request quote_id beg end_ klt fqt) = Body j ∧
    st' = sent (kline_request quote_id beg end_ klt fqt) st1 ∧
    match jsonpath_klines j with
    | [] => raw = empty_frame kline_schema
    | klines =>
        ∃ rs name df0 df1,
          result_map split_kline klines = Ok rs ∧
          data_name j = Ok name ∧
          frame_of_rows rs (map snd EASTMONEY_KLINE_FIELDS) = Ok df0 ∧
          insert0 "代码" (JStr (last_piece (split "." quote_id))) df0 = Ok df1 ∧
          insert0 "名称" name df1 = Ok raw
    end.
Proof.
  unfold get_quote_history_single_body. intros Hrun.
  apply bind_ok in Hrun as (quote_id & st1 & Hq & Hrun).
  apply bind_ok in Hrun as (j & st2 & Hget & Hrun).
  apply session_get_json_ok in Hget as [Hj ->].
  exists quote_id, st1, j. split; [exact Hq|]. split; [exact Hj|].
  destruct (jsonpath_klines j) as [|kline klines].
  - injection Hrun as <- <-. split; reflexivity.
  - apply bind_ok in Hrun as (rs & s1 & Hrs & Hrun). apply lift_ok in Hrs as [Hrs ->].
    apply bind_ok in Hrun as (name & s1 & Hname & Hrun). apply lift_ok in Hname as [Hname ->].
    apply bind_ok in Hrun as (df0 & s1 & Hdf0 & Hrun). apply lift_ok in Hdf0 as [Hdf0 ->].
    apply bind_ok in Hrun as (df1 & s1 & Hdf1 & Hrun). apply lift_ok in Hdf1 as [Hdf1 ->].
    apply bind_ok in Hrun as (df2 & s1 & Hdf2 & Hrun). apply lift_ok in Hdf2 as [Hdf2 ->].
    injection Hrun as <- <-. split; [reflexivity|].
    exists rs, name, df0, df1. repeat split; assumption.
Qed.


(** Whatever the payload, a table that [get_quote_history_single] returns
    carries the declared schema. *)
Lemma get_quote_history_single_schema code beg end_ klt fqt kw st df st' :
  get_quote_history_single code beg end_ klt fqt kw st = (Ok df, st') →
  columns df = kline_schema ∧ well_formed df.
Proof.
  intros Hrun. apply to_numeric_ok in Hrun as (raw & Hrun & ->).
  apply get_quote_history_single_body_ok in Hrun
    as (quote_id & st1 & j & _ & _ & _ & Hraw).
  rewrite normalize_frame_columns.
  destruct (jsonpath_klines j) as [|kline klines].
  - subst raw. split; [reflexivity | constructor].
  - destruct Hraw as (rs & name & df0 & df1 & Hrs & _ & Hdf0 & Hdf1 & Hraw).
    destruct (rows_of_klines _ _ _ _ _ _ _ _ Hrs Hdf0 Hdf1 Hraw)
      as (lines & names & _ & _ & Hcols & _ & Hwf).
    split; [exact Hcols | apply normalize_frame_well_formed; exact Hwf].
Qed.


Lemma get_quote_history_single_no_data code beg end_ klt fqt kw st quote_id st1 j :
  jsonpath_klines j = [] →
  quote_id_of code kw st = (Ok quote_id, st1) →
  remote (log st1) (kline_request quote_id beg end_ klt fqt) = Body j →
  get_quote_history_single code beg end_ klt fqt kw st =
    (Ok (empty_frame kline_schema),
     sent (kline_request quote_id beg end_ klt fqt) st1).
Proof.
  intros Hnone Hq Hj.
  unfold get_quote_history_single, to_numeric, get_quote_history_single_body, bind.
  rewrite Hq, (session_get_json_body _ _ _ Hj), Hnone. reflexivity.
Qed.



(** C8. When the payload holds a non-empty list of lines, the table that
    [get_quote_history_single] returns has one row per line; it is the
    normaliser's image of the table whose row [i] is the name, the code and
    then the pieces of line [i] split at the commas, one piece per column of
    the field table in order (pandas fills a short row with [None]). *)
Theorem klines_become_aligned_rows
    code beg end_ klt fqt kw st quote_id st1 j kline klines df st' :
  quote_id_of code kw st = (Ok quote_id, st1) →
  remote (log st1) (kline_request quote_id beg end_ klt fqt) = Body j →
  jsonpath_klines j = kline :: klines →
  get_quote_history_single code beg end_ klt fqt kw st = (Ok df, st') →
  ∃ lines name names raw,
    kline :: klines = map JStr lines ∧
    data_name j = Ok name ∧
    column_values name (length lines) = Ok names ∧
    (scalar name → names = replicate (length lines) (Py name)) ∧
    rows raw =
      zip_with (λ nm line,
                  nm :: Str (last_piece (split "." quote_id))
                     :: pad (length EASTMONEY_KLINE_FIELDS)
                            (map Str (split "," line)))
               names lines ∧
    columns raw = "名称" :: "代码" :: map snd EASTMONEY_KLINE_FIELDS ∧
    well_formed raw ∧
    df = normalize_frame raw ∧
    length (rows df) = length lines ∧
    columns df = columns raw.
Proof.
  intros Hq Hj Hlines Hrun.
  apply to_numeric_ok in Hrun as (raw & Hrun & ->).
  apply get_quote_history_single_body_ok in Hrun
    as (quote_id' & st1' & j' & Hq' & Hj' & _ & Hraw).
  rewrite Hq in Hq'. injection Hq' as <- <-.
  rewrite Hj in Hj'. injection Hj' as <-.
  rewrite Hlines in Hraw.
  destruct Hraw as (rs & name & df0 & df1 & Hrs & Hname & Hdf0 & Hdf1 & Hraw).
  destruct (rows_of_klines _ _ _ _ _ _ _ _ Hrs Hdf0 Hdf1 Hraw)
    as (lines & names & Hk & Hnames & Hcols & Hrows & Hwf).
  exists lines, name, names, raw.
  split; [exact Hk|]. split; [exact Hname|]. split; [exact Hnames|].
  split; [intros Hs; apply (column_values_scalar _ _ _ Hs Hnames)|].
  split; [rewrite Hrows, length_map; reflexivity|].
  split; [exact Hcols|]. split; [exact Hwf|]. split; [reflexivity|].
  split; [|reflexivity].
  rewrite normalize_frame_rows_length, Hrows, length_zip_with.
  apply column_values_length in Hnames. lia.
Qed.

(** X1. [get_today_bill] differs from the two getters above: it subscripts the
    result of [jsonpath(json_response, '$..name')] before it tests the lines,
    so a payload without any [name] member (such as [{"data": null}]) makes
    it raise [TypeError] rather than return the empty table. *)
Lemma get_today_bill_needs_a_name code st quote_id st1 j :
  jsonpath_name j = [] →
  get_quote_id code st = (Ok quote_id, st1) →
  remote (log st1) (today_bill_request quote_id) = Body j →
  get_today_bill code st =
    (Raise TypeError, sent (today_bill_request quote_id) st1).
Proof.
  intros Hnone Hq Hj.
  unfold get_today_bill, to_numeric, get_today_bill_body, bind.
  rewrite Hq, (session_get_json_body _ _ _ Hj), Hnone. reflexivity.
Qed.

(** When the service cannot be reached, no fetch succeeds. *)
Lemma unreachable_single_fails code beg end_ klt fqt kw st :
  (∀ served rq, ∃ e, remote served rq = Fails e) →
  ∃ e st', get_quote_history_single code beg end_ klt fqt kw st = (Raise e, st').
Proof.
  intros Hdown.
  unfold get_quote_history_single, to_numeric, get_quote_history_single_body, bind.
  destruct (quote_id_of code kw st) as [[quote_id|e] st1]; [|eauto].
  unfold session_get_json.
  destruct (Hdown (log st1) (kline_request quote_id beg end_ klt fqt)) as [e ->].
  eauto.
Qed.

End GetterFacts.

(** ** The batch orchestrator *)

Section BatchFacts.
Context `{Env}.
Context (args : BatchArgs).

Lemma insert_middle {A} (l : list A) (i : nat) (x y : A) :
  l !! i = Some x →
  ∃ l1 l2, l = l1 ++ x :: l2 ∧ <[i := y]> l = l1 ++ y :: l2.
Proof.
  intros Hi. exists (take i l), (drop (S i) l). split.
  - symmetry. apply take_drop_middle. exact Hi.
  - apply insert_take_drop. eapply lookup_lt_Some. exact Hi.
Qed.

Lemma terminated_no_step (sh : Shared) (u : Unit) :
  terminated u = true → unit_step args sh u = None.
Proof. unfold terminated, unit_step. destruct (pc u); (discriminate || reflexivity). Qed.

Lemma unit_step_terminated (sh : Shared) (u : Unit) :
  terminated u = false → is_Some (unit_step args sh u).
Proof.
  unfold terminated, unit_step. destruct (pc u); try discriminate; intros _; eauto.
  case_decide; [eauto|].
  destruct (get_quote_history_single _ _ _ _ _ _ _) as [[df|e] st']; eauto.
Qed.

(** Every step is a step of the calling thread or of one unit, the other
    units being left as they are. *)
Lemma step_inv (b b' : Batch) :
  step args b b' →
  main_step args b = Some b' ∨
  ∃ l1 u l2 sh' u',
    units b = l1 ++ u :: l2 ∧
    unit_step args (shared b) u = Some (sh', u') ∧
    b' = {| shared := sh'; units := l1 ++ u' :: l2; main := main b |}.
Proof.
  intros [b0 b0' Hmain | b0 i u sh' u' Hi Hstep]; [left; exact Hmain | right].
  destruct (insert_middle (units b0) i u u' Hi) as (l1 & l2 & Hl & Hl').
  exists l1, u, l2, sh', u'. rewrite Hl'. repeat split; assumption.
Qed.

(** The induction principle for what holds throughout a batch. *)
Lemma batch_ind (P : Batch → Prop) (st : State) (codes : list string) :
  P (batch_init st codes) →
  (∀ b b', rtc (step args) (batch_init st codes) b → P b →
           main_step args b = Some b' → P b') →
  (∀ b l1 u l2 sh' u',
     rtc (step args) (batch_init st codes) b → P b →
     units b = l1 ++ u :: l2 →
     unit_step args (shared b) u = Some (sh', u') →
     P {| shared := sh'; units := l1 ++ u' :: l2; main := main b |}) →
  ∀ b, rtc (step args) (batch_init st codes) b → P b.
Proof.
  intros Hinit Hmain Hunit. apply rtc_ind_r; [exact Hinit|].
  intros b b' Hreach Hstep IH.
  apply step_inv in Hstep as [Hm | (l1 & u & l2 & sh' & u' & Hl & Hu & ->)].
  - eapply Hmain; eassumption.
  - eapply Hunit; eassumption.
Qed.

Lemma unit_step_code (sh sh' : Shared) (u u' : Unit) :
  unit_step args sh u = Some (sh', u') → unit_code u' = unit_code u.
Proof. intros Hu. unit_step_cases Hu u; reflexivity. Qed.

(** The units started so far are those of a prefix of [codes], in order. *)
Lemma started_in_order (st : State) (codes : list string) (b : Batch) :
  rtc (step args) (batch_init st codes) b →
  map unit_code (units b) ++ pending (main b) = codes.
Proof.
  revert b. apply batch_ind.
  - reflexivity.
  - intros b b' _ IH Hm. main_step_cases Hm b; simpl in *.
    + rewrite app_nil_r in *. exact IH.
    + rewrite map_app, <- app_assoc. exact IH.
    + exact IH.
  - intros b l1 u l2 sh' u' _ IH Hl Hu. simpl.
    rewrite Hl in IH. rewrite map_app in *. simpl in *.
    rewrite (unit_step_code _ _ _ _ Hu). exact IH.
Qed.

(** Once [wait_for_tasks] has returned, every unit has ended; and what is
    returned is [dfs]. *)
Lemma joined_all_ended (st : State) (codes : list string) (b : Batch) :
  rtc (step args) (batch_init st codes) b →
  match main b with
  | Spawning _ => True
  | Joined => forallb terminated (units b) = true
  | Returned m => forallb terminated (units b) = true ∧ m = dfs (shared b)
  end.
Proof.
  revert b. apply batch_ind.
  - exact I.
  - intros b b' _ IH Hm. main_step_cases Hm b; simpl in *.
    + exact Hended.
    + exact I.
    + split; [exact IH | reflexivity].
  - intros b l1 u l2 sh' u' _ IH Hl Hu. simpl.
    assert (Hno : forallb terminated (units b) = true → False).
    { rewrite Hl, forallb_app. simpl. intros Hall.
      apply andb_prop in Hall as [_ Hall]. apply andb_prop in Hall as [Hu' _].
      rewrite (terminated_no_step _ _ Hu') in Hu. discriminate. }
    destruct (main b); [exact I | destruct (Hno IH) | destruct (Hno (proj1 IH))].
Qed.

(** The keys of [dfs] are the codes of the units that have stored their
    table. *)
Lemma dfs_keys (st : State) (codes : list string) (b : Batch) :
  rtc (step args) (batch_init st codes) b →
  dom (dfs (shared b)) = list_to_set (map unit_code (List.filter stored (units b))).
Proof.
  revert b. apply batch_ind.
  - simpl. apply dom_empty_L.
  - intros b b' _ IH Hm. main_step_cases Hm b; simpl in *; try exact IH.
    rewrite List.filter_app. simpl. rewrite app_nil_r. exact IH.
  - intros b l1 u l2 sh' u' _ IH Hl Hu. rewrite Hl in IH. revert IH. simpl.
    rewrite !List.filter_app, !map_app, !list_to_set_app_L.
    unit_step_cases Hu u; simpl; try (intros ->; reflexivity).
    rewrite dom_insert_L. intros ->.
    rewrite (assoc_L (∪)), (comm_L (∪) {[code]}), <- (assoc_L (∪)). reflexivity.
Qed.

(** The progress bar counts the units that have advanced it. *)
Lemma pbar_counts (st : State) (codes : list string) (b : Batch) :
  rtc (step args) (batch_init st codes) b →
  pbar_n (shared b) = length (List.filter counted (units b)) ∧
  pbar_total (shared b) = length codes.
Proof.
  revert b. apply batch_ind.
  - split; reflexivity.
  - intros b b' _ IH Hm. main_step_cases Hm b; simpl in *; try exact IH.
    rewrite List.filter_app. simpl. rewrite app_nil_r. exact IH.
  - intros b l1 u l2 sh' u' _ IH Hl Hu. rewrite Hl in IH. revert IH. simpl.
    rewrite !List.filter_app, !length_app.
    unit_step_cases Hu u; simpl; try (intros [-> ->]; split; reflexivity).
    intros [-> ->]. split; [lia | reflexivity].
Qed.

(** The attempts of every unit are accounted for. *)
Lemma attempts_accounted (st : State) (codes : list string) (b : Batch) :
  rtc (step args) (batch_init st codes) b →
  Forall (attempts_ok (tries args)) (units b).
Proof.
  revert b. apply batch_ind.
  - constructor.
  - intros b b' _ IH Hm. main_step_cases Hm b; simpl in *; try exact IH.
    apply Forall_app. split; [exact IH|]. constructor; [|constructor].
    unfold attempts_ok. simpl. lia.
  - intros b l1 u l2 sh' u' _ IH Hl Hu. rewrite Hl in IH. simpl.
    apply Forall_app in IH as [IH1 IH2]. apply Forall_cons in IH2 as [IHu IH2].
    apply Forall_app. split; [exact IH1|]. constructor; [|exact IH2].
    clear IH1 IH2 Hl. revert IHu.
    unit_step_cases Hu u; unfold attempts_ok; simpl; lia.
Qed.

(** When no fetch succeeds, no unit ever gets a table. *)
Lemma nothing_fetched (st : State) (codes : list string) (b : Batch) :
  (∀ code s, ∃ e s',
     get_quote_history_single code (beg args) (end_ args) (klt args)
       (fqt args) (kwargs args) s = (Raise e, s')) →
  rtc (step args) (batch_init st codes) b →
  Forall (λ u, unfetched u = true) (units b).
Proof.
  intros Hfail. revert b. apply batch_ind.
  - constructor.
  - intros b b' _ IH Hm. main_step_cases Hm b; simpl in *; try exact IH.
    apply Forall_app. split; [exact IH|]. constructor; [reflexivity | constructor].
  - intros b l1 u l2 sh' u' _ IH Hl Hu. rewrite Hl in IH. simpl.
    apply Forall_app in IH as [IH1 IH2]. apply Forall_cons in IH2 as [IHu IH2].
    apply Forall_app. split; [exact IH1|]. constructor; [|exact IH2].
    clear IH1 IH2 Hl. revert IHu.
    unit_step_cases Hu u; unfold unfetched; simpl; try (intros; congruence).
    destruct (Hfail code (state (shared b))) as (e & s' & Hraise).
    rewrite Hraise in Hfetch. discriminate.
Qed.

Lemma filter_none {A} (p q : A → bool) (l : list A) :
  (∀ x, q x = true → p x = false) →
  Forall (λ x, q x = true) l → List.filter p l = [].
Proof.
  intros Hpq Hall. induction Hall as [|x l Hx _ IH]; [reflexivity|].
  simpl. rewrite (Hpq x Hx). exact IH.
Qed.

(** A step uses up fuel, as long as no unit has a negative number of tries
    left. *)
Lemma step_uses_fuel (b b' : Batch) :
  (0 ≤ tries args)%Z →
  Forall (attempts_ok (tries args)) (units b) →
  step args b b' → fuel args b' < fuel args b.
Proof.
  intros Htries Hacc Hstep. unfold fuel.
  apply step_inv in Hstep as [Hm | (l1 & u & l2 & sh' & u' & Hl & Hu & ->)].
  - main_step_cases Hm b; simpl.
    + lia.
    + rewrite sum_list_with_app. unfold start, unit_fuel. simpl. lia.
    + lia.
  - rewrite Hl in *. simpl. rewrite !sum_list_with_app. simpl.
    apply Forall_app in Hacc as [_ Hacc]. apply Forall_cons in Hacc as [Hacc _].
    revert Hacc.
    unit_step_cases Hu u; unfold attempts_ok, unit_fuel; simpl; lia.
Qed.

Lemma forallb_false_lookup {A} (p : A → bool) (l : list A) :
  forallb p l = false → ∃ i x, l !! i = Some x ∧ p x = false.
Proof.
  induction l as [|x l IH]; [discriminate|]. simpl.
  destruct (p x) eqn:Hx; simpl.
  - intros Hl. destruct (IH Hl) as (i & y & Hi & Hy). exists (S i), y. split; assumption.
  - intros _. exists 0, x. split; [reflexivity | exact Hx].
Qed.

(** Until it has returned, the batch can move. *)
Lemma batch_can_move (b : Batch) :
  (∀ m, main b ≠ Returned m) → ∃ b', step args b b'.
Proof.
  intros Hrun. destruct (main b) as [[|code rest]| |m] eqn:Hmain.
  - destruct (forallb terminated (units b)) eqn:Hended.
    + eexists. apply step_main. unfold main_step. rewrite Hmain, Hended. reflexivity.
    + apply forallb_false_lookup in Hended as (i & u & Hi & Hu).
      destruct (unit_step_terminated (shared b) u Hu) as [[sh' u'] Hstep].
      eexists. eapply step_unit; eassumption.
  - eexists. apply step_main. unfold main_step. rewrite Hmain. reflexivity.
  - eexists. apply step_main. unfold main_step. rewrite Hmain. reflexivity.
  - destruct (Hrun m eq_refl).
Qed.

(** With [tries >= 0], the batch can always be run to its [return]. *)
Lemma return_reachable (st : State) (codes : list string) (b : Batch) :
  (0 ≤ tries args)%Z →
  rtc (step args) (batch_init st codes) b →
  ∃ b' m, rtc (step args) b b' ∧ main b' = Returned m.
Proof.
  intros Htries. remember (fuel args b) as k eqn:Hk. revert b Hk.
  induction k as [k IH] using lt_wf_ind. intros b -> Hreach.
  destruct (main b) as [rest| |m] eqn:Hmain.
  - destruct (batch_can_move b) as [b1 Hstep]; [congruence|].
    destruct (IH (fuel args b1)) with (b := b1) as (b' & m & Hrun & Hret).
    + apply step_uses_fuel; [exact Htries | | exact Hstep].
      eapply attempts_accounted; exact Hreach.
    + reflexivity.
    + eapply rtc_r; eassumption.
    + exists b', m. split; [eapply rtc_l; eassumption | exact Hret].
  - destruct (batch_can_move b) as [b1 Hstep]; [congruence|].
    destruct (IH (fuel args b1)) with (b := b1) as (b' & m & Hrun & Hret).
    + apply step_uses_fuel; [exact Htries | | exact Hstep].
      eapply attempts_accounted; exact Hreach.
    + reflexivity.
    + eapply rtc_r; eassumption.
    + exists b', m. split; [eapply rtc_l; eassumption | exact Hret].
  - exists b, m. split; [constructor | exact Hmain].
Qed.

(** Running a schedule follows the steps of the batch. *)
Lemma run_steps (schedule : list (option nat)) (b : Batch) :
  rtc (step args) b (run args schedule b).
Proof.
  revert b. induction schedule as [|who later IH]; intros b; [constructor|].
  simpl. destruct (move args who b) as [b1|] eqn:Hmove; simpl; [|apply IH].
  eapply rtc_l; [|apply IH].
  destruct who as [i|]; simpl in Hmove.
  - destruct (units b !! i) as [u|] eqn:Hi; simpl in Hmove; [|discriminate].
    destruct (unit_step args (shared b) u) as [[sh' u']|] eqn:Hu; simpl in Hmove;
      [|discriminate].
    injection Hmove as <-. eapply step_unit; eassumption.
  - apply step_main. exact Hmove.
Qed.

(** Every table in [dfs], and every table a unit is about to store, came
    from [get_quote_history_single] and has the declared schema. *)
Lemma dfs_tables_have_schema (st : State) (codes : list string) (b : Batch) :
  rtc (step args) (batch_init st codes) b →
  (∀ code df, dfs (shared b) !! code = Some df →
              columns df = kline_schema ∧ well_formed df) ∧
  Forall (λ u, ∀ df, pc u = Fetched df →
                     columns df = kline_schema ∧ well_formed df) (units b).
Proof.
  revert b. apply batch_ind.
  - split; [|constructor]. intros code df Hin. simpl in Hin.
    rewrite lookup_empty in Hin. discriminate.
  - intros b b' _ IH Hm. main_step_cases Hm b; simpl in *; try exact IH.
    destruct IH as [IHd IHu]. split; [exact IHd|].
    apply Forall_app. split; [exact IHu|]. constructor; [|constructor].
    intros df Hpc. discriminate.
  - intros b l1 u l2 sh' u' _ [IHd IHu] Hl Hu. rewrite Hl in IHu. simpl.
    apply Forall_app in IHu as [IH1 IH2]. apply Forall_cons in IH2 as [IHu IH2].
    rewrite Forall_app, Forall_cons.
    unit_step_cases Hu u; simpl in *;
      try (split; [exact IHd | split; [exact IH1 | split; [|exact IH2]]];
           intros ? ?; discriminate).
    + split; [exact IHd | split; [exact IH1 | split; [|exact IH2]]].
      intros df' [= <-]. eapply get_quote_history_single_schema. exact Hfetch.
    + split; [|split; [exact IH1 | split; [|exact IH2]]].
      * intros code' df' Hin. destruct (decide (code = code')) as [<-|Hne].
        -- rewrite lookup_insert_eq in Hin. injection Hin as <-.
           apply IHu. reflexivity.
        -- rewrite lookup_insert_ne in Hin by exact Hne. eapply IHd. exact Hin.
      * intros ? ?; discriminate.
Qed.

(** With [tries >= 0], no run of the batch is longer than the fuel it
    starts with. *)
Lemma runs_are_bounded (st : State) (codes : list string) (b b' : Batch) (n : nat) :
  (0 ≤ tries args)%Z →
  rtc (step args) (batch_init st codes) b →
  nsteps (step args) n b b' →
  fuel args b' + n ≤ fuel args b.
Proof.
  intros Htries Hreach Hrun. induction Hrun as [b|n b b1 b' Hstep Hrun IH]; [lia|].
  assert (Hless : fuel args b1 < fuel args b).
  { apply step_uses_fuel; [exact Htries | | exact Hstep].
    eapply attempts_accounted. exact Hreach. }
  assert (Hreach1 : rtc (step args) (batch_init st codes) b1)
    by (eapply rtc_r; eassumption).
  specialize (IH Hreach1). lia.
Qed.

Lemma filter_agree {A} (p q : A → bool) (l : list A) :
  Forall (λ x, p x = q x) l → List.filter p l = List.filter q l.
Proof.
  intros Hall. induction Hall as [|x l Hx _ IH]; [reflexivity|].
  simpl. rewrite Hx, IH. reflexivity.
Qed.

Lemma forallb_Forall {A} (p : A → bool) (l : list A) :
  forallb p l = true → Forall (λ x, p x = true) l.
Proof.
  induction l as [|x l IH]; [constructor|]. simpl.
  intros Hall. apply andb_prop in Hall as [Hx Hl]. constructor; [exact Hx | exact (IH Hl)].
Qed.

Lemma ended_stored_succeeded (us : list Unit) :
  forallb terminated us = true →
  List.filter stored us = List.filter succeeded us ∧
  List.filter counted us = List.filter succeeded us.
Proof.
  intros Hall. apply forallb_Forall in Hall.
  split; apply filter_agree; (eapply Forall_impl; [exact Hall|]); intros u;
    unfold terminated, stored, counted, succeeded;
    destruct (pc u); simpl; (reflexivity || discriminate).
Qed.

Lemma filter_codes_subseteq (p : Unit → bool) (us : list Unit) :
  list_to_set (C := gset string) (map unit_code (List.filter p us))
    ⊆ list_to_set (map unit_code us).
Proof.
  intros code. rewrite !elem_of_list_to_set, !list_elem_of_fmap.
  intros (u & -> & Hu). exists u. split; [reflexivity|].
  apply list_elem_of_In. apply list_elem_of_In, List.filter_In in Hu as [Hu _].
  exact Hu.
Qed.

(** C9. [get_quote_history_multi] returns only after the unit of every
    input identifier has ended: when it has returned there is one unit per
    identifier, in the order of the input; each of them has ended, by a
    successful fetch or by the exception of its last retry (or, when [tries]
    is 0, without an attempt); what is returned is the dict the units wrote
    into; and nothing can move any more. And it does return: with [tries]
    not negative, a [return] can be reached from wherever the batch stands,
    within the fuel that is left. *)
Theorem returns_after_every_unit_ended
    (st : State) (codes : list string) (b : Batch) :
  rtc (step args) (batch_init st codes) b →
  (∀ m, main b = Returned m →
        map unit_code (units b) = codes ∧
        Forall (λ u, pc u = Finished ∨ (∃ e, pc u = Died e) ∨
                     (pc u = Skipped ∧ tries args = 0%Z)) (units b) ∧
        m = dfs (shared b) ∧
        ∀ b', ¬ step args b b') ∧
  ((0 ≤ tries args)%Z →
   (∃ b' m, rtc (step args) b b' ∧ main b' = Returned m) ∧
   ∀ n b', nsteps (step args) n b b' → n ≤ fuel args b).
Proof.
  intros Hreach. split.
  - intros m Hret.
    pose proof (started_in_order st codes b Hreach) as Hcodes.
    pose proof (joined_all_ended st codes b Hreach) as Hended.
    pose proof (attempts_accounted st codes b Hreach) as Hacc.
    rewrite Hret in Hcodes, Hended. simpl in Hcodes. rewrite app_nil_r in Hcodes.
    destruct Hended as [Hended ->].
    split; [exact Hcodes|]. split; [|split; [reflexivity|]].
    + apply forallb_Forall in Hended.
      apply Forall_forall. intros u Hu.
      rewrite Forall_forall in Hended, Hacc.
      specialize (Hended u Hu). specialize (Hacc u Hu).
      unfold terminated in Hended. unfold attempts_ok in Hacc.
      destruct (pc u); try discriminate; eauto.
      right. right. split; [reflexivity | apply Hacc].
    + intros b' Hstep.
      apply step_inv in Hstep as [Hm | (l1 & u & l2 & sh' & u' & Hl & Hu & _)].
      * unfold main_step in Hm. rewrite Hret in Hm. discriminate.
      * rewrite Hl, forallb_app in Hended. simpl in Hended.
        apply andb_prop in Hended as [_ Hended].
        apply andb_prop in Hended as [Hended _].
        rewrite (terminated_no_step _ _ Hended) in Hu. discriminate.
  - intros Htries. split.
    + exact (return_reachable st codes b Htries Hreach).
    + intros n b' Hrun.
      pose proof (runs_are_bounded st codes b b' n Htries Hreach Hrun). lia.
Qed.

(** C1, as the code has it. When [get_quote_history_multi] has returned,
    there was one unit per input identifier, and the keys of the returned
    dict are the identifiers of the units that ended after a successful
    fetch: a subset of the input identifiers, without any identifier all of
    whose units ended with the exception of their last retry. Every table
    in the dict has the declared schema. With [tries] not negative the
    batch can be run to its [return] from wherever it stands. *)
Theorem result_keys_are_the_fetched_codes
    (st : State) (codes : list string) (b : Batch) :
  rtc (step args) (batch_init st codes) b →
  (∀ m, main b = Returned m →
        map unit_code (units b) = codes ∧
        dom m = list_to_set (map unit_code (List.filter succeeded (units b))) ∧
        dom m ⊆ list_to_set codes ∧
        (∀ code, (∀ u, u ∈ units b → unit_code u = code → ∃ e, pc u = Died e) →
                 m !! code = None) ∧
        (∀ code df, m !! code = Some df →
                    columns df = kline_schema ∧ well_formed df)) ∧
  ((0 ≤ tries args)%Z → ∃ b' m, rtc (step args) b b' ∧ main b' = Returned m).
Proof.
  intros Hreach. split; [|intros Htries; exact (return_reachable st codes b Htries Hreach)].
  intros m Hret.
  pose proof (started_in_order st codes b Hreach) as Hcodes.
  pose proof (joined_all_ended st codes b Hreach) as Hended.
  pose proof (dfs_keys st codes b Hreach) as Hkeys.
  pose proof (dfs_tables_have_schema st codes b Hreach) as [Hschema _].
  rewrite Hret in Hcodes, Hended. simpl in Hcodes. rewrite app_nil_r in Hcodes.
  destruct Hended as [Hended ->].
  destruct (ended_stored_succeeded _ Hended) as [Hstored _].
  rewrite Hstored in Hkeys.
  split; [exact Hcodes|]. split; [exact Hkeys|]. split; [|split; [|exact Hschema]].
  - rewrite Hkeys, <- Hcodes. apply filter_codes_subseteq.
  - intros code Hdied. apply not_elem_of_dom. rewrite Hkeys.
    rewrite elem_of_list_to_set, list_elem_of_fmap. intros (u & -> & Hu).
    apply list_elem_of_In, List.filter_In in Hu as [Hu Hok].
    apply list_elem_of_In in Hu. destruct (Hdied u Hu eq_refl) as [e He].
    unfold succeeded in Hok. rewrite He in Hok. discriminate.
Qed.

(** C4, as the code has it. Throughout a batch the progress counter is the
    number of units that have passed [pbar.update(1)], which a unit reaches
    once, after a successful fetch and after storing its table; a failed
    attempt does not reach it. When the batch has returned the counter is
    the number of units that ended after a successful fetch, at most the
    number of input identifiers. With [tries] not negative the batch can be
    run to its [return] from wherever it stands. *)
Theorem progress_counts_fetched_units
    (st : State) (codes : list string) (b : Batch) :
  rtc (step args) (batch_init st codes) b →
  pbar_n (shared b) = length (List.filter counted (units b)) ∧
  pbar_total (shared b) = length codes ∧
  (∀ m, main b = Returned m →
        pbar_n (shared b) = length (List.filter succeeded (units b)) ∧
        pbar_n (shared b) ≤ length codes) ∧
  ((0 ≤ tries args)%Z → ∃ b' m, rtc (step args) b b' ∧ main b' = Returned m).
Proof.
  intros Hreach.
  destruct (pbar_counts st codes b Hreach) as [Hn Htotal].
  split; [exact Hn|]. split; [exact Htotal|].
  split; [|intros Htries; exact (return_reachable st codes b Htries Hreach)].
  intros m Hret.
  pose proof (started_in_order st codes b Hreach) as Hcodes.
  pose proof (joined_all_ended st codes b Hreach) as Hended.
  rewrite Hret in Hcodes, Hended. simpl in Hcodes. rewrite app_nil_r in Hcodes.
  destruct Hended as [Hended _].
  destruct (ended_stored_succeeded _ Hended) as [_ Hcounted].
  rewrite Hn, Hcounted. split; [reflexivity|].
  rewrite <- Hcodes, length_map. apply List.filter_length_le.
Qed.

(** C3, as the code has it. With [tries = 3] and a service that fails every
    request, no unit makes more than 3 attempts; a unit that has ended made
    exactly 3 and ended with the exception of the third; no table, empty or
    not, is stored for its identifier, neither in [dfs] nor in what the batch
    returns, and the progress counter stays at 0; and the batch can be run to
    its [return] from wherever it stands. *)
Theorem exhausted_unit_leaves_no_table
    (st : State) (codes : list string) (b : Batch) (u : Unit) :
  tries args = 3%Z →
  (∀ served rq, ∃ e, remote served rq = Fails e) →
  rtc (step args) (batch_init st codes) b →
  u ∈ units b →
  attempts u ≤ 3 ∧
  (terminated u = true → attempts u = 3 ∧ ∃ e, pc u = Died e) ∧
  dfs (shared b) !! unit_code u = None ∧
  pbar_n (shared b) = 0 ∧
  (∀ m, main b = Returned m → m !! unit_code u = None) ∧
  ∃ b' m, rtc (step args) b b' ∧ main b' = Returned m ∧ m !! unit_code u = None.
Proof.
  intros Htries Hdown Hreach Hu.
  assert (Hfail : ∀ code s, ∃ e s',
    get_quote_history_single code (beg args) (end_ args) (klt args)
      (fqt args) (kwargs args) s = (Raise e, s')).
  { intros code s. apply unreachable_single_fails. exact Hdown. }
  assert (Hempty : ∀ b0, rtc (step args) (batch_init st codes) b0 →
                         dfs (shared b0) = ∅ ∧ pbar_n (shared b0) = 0).
  { intros b0 Hreach0.
    pose proof (nothing_fetched st codes b0 Hfail Hreach0) as Hnone.
    pose proof (dfs_keys st codes b0 Hreach0) as Hkeys.
    destruct (pbar_counts st codes b0 Hreach0) as [Hn _].
    rewrite (filter_none stored unfetched) in Hkeys; [|clear|exact Hnone].
    2: { intros x. unfold stored, unfetched. destruct (pc x); (reflexivity || discriminate). }
    rewrite (filter_none counted unfetched) in Hn; [|clear|exact Hnone].
    2: { intros x. unfold counted, unfetched. destruct (pc x); (reflexivity || discriminate). }
    split; [apply dom_empty_iff_L; exact Hkeys | exact Hn]. }
  pose proof (attempts_accounted st codes b Hreach) as Hacc.
  pose proof (nothing_fetched st codes b Hfail Hreach) as Hnone.
  rewrite Forall_forall in Hacc, Hnone.
  specialize (Hacc u Hu). specialize (Hnone u Hu).
  destruct (Hempty b Hreach) as [Hdfs Hn].
  rewrite Htries in Hacc. unfold attempts_ok in Hacc. unfold unfetched in Hnone.
  split; [destruct (pc u); try discriminate; lia|].
  split; [|split; [rewrite Hdfs; apply lookup_empty|split; [exact Hn|split]]].
  - unfold terminated. destruct (pc u); try discriminate; intros _.
    + lia.
    + split; [lia | eauto].
  - intros m Hret.
    pose proof (joined_all_ended st codes b Hreach) as Hended.
    rewrite Hret in Hended. destruct Hended as [_ ->].
    rewrite Hdfs. apply lookup_empty.
  - destruct (return_reachable st codes b) as (b' & m & Hrun & Hret);
      [lia | exact Hreach|].
    exists b', m. split; [exact Hrun|]. split; [exact Hret|].
    assert (Hreach' : rtc (step args) (batch_init st codes) b')
      by (etrans; eassumption).
    pose proof (joined_all_ended st codes b' Hreach') as Hended.
    rewrite Hret in Hended. destruct Hended as [_ ->].
    destruct (Hempty b' Hreach') as [-> _]. apply lookup_empty.
Qed.

End BatchFacts.

(** ** The dispatch facade *)

Section DispatchFacts.
Context `{Env}.

Lemma outcome_of_not_map (r : result DataFrame) (m : gmap string DataFrame) :
  outcome_of r ≠ ResultMap m.
Proof. destruct r; discriminate. Qed.

(** With [tries >= 0] the batch getter returns a dict. *)
Lemma get_quote_history_multi_returns (codes : list string) (args : BatchArgs)
    (st : State) :
  (0 ≤ tries args)%Z →
  ∃ m st', get_quote_history_multi codes args st m st'.
Proof.
  intros Htries.
  destruct (return_reachable args st codes (batch_init st codes) Htries)
    as (b & m & Hrun & Hret); [constructor|].
  exists m, (state (shared b)), b. repeat split; assumption.
Qed.

(** C6. [get_quote_history] hands a [str] to the single-item getter and
    ends as that getter does, with its table or its exception; it hands a
    list or a tuple to the batch getter and ends with the dict that one
    returns (which it does return when [tries] is not negative); for an
    argument that is neither a [str] nor iterable it raises [TypeError] and
    leaves the state, and so the log of requests, as it was. *)
Theorem dispatch_routes_on_input_shape
    (beg end_ : string) (klt fqt : Z) (kw : Kwargs) (st : State) :
  (∀ s out st',
     get_quote_history (ArgStr s) beg end_ klt fqt kw st out st' ↔
     ∃ r, get_quote_history_single s beg end_ klt fqt kw st = (r, st') ∧
          out = outcome_of r) ∧
  (∀ codes out st',
     isinstance_str codes = false → has_iter codes = true →
     (get_quote_history codes beg end_ klt fqt kw st out st' ↔
      ∃ m, out = ResultMap m ∧
           get_quote_history_multi (to_list codes)
             (batch_args beg end_ klt fqt kw) st m st')) ∧
  (∀ codes, isinstance_str codes = false → has_iter codes = true →
     (0 ≤ default 3 (kw_tries kw))%Z →
     ∃ m st', get_quote_history codes beg end_ klt fqt kw st (ResultMap m) st') ∧
  (∀ codes out st',
     isinstance_str codes = false → has_iter codes = false →
     (get_quote_history codes beg end_ klt fqt kw st out st' ↔
      out = Raised TypeError ∧ st' = st ∧ requests_sent st' = requests_sent st)).
Proof.
  split; [|split; [|split]].
  - intros s out st'. split.
    + intros Hrun. inversion Hrun as [s0 r st0 Hs Hsingle | m st0 Hstr | Hstr];
        try discriminate.
      injection Hs as <-. exists r. split; [exact Hsingle | reflexivity].
    + intros (r & Hsingle & ->). eapply dispatch_single; [reflexivity | exact Hsingle].
  - intros codes out st' Hstr Hiter. split.
    + intros Hrun. inversion Hrun as [s r st0 Hs | m st0 _ _ Hmulti | _ Hno].
      * subst codes. discriminate.
      * exists m. split; [reflexivity | exact Hmulti].
      * congruence.
    + intros (m & -> & Hmulti). apply dispatch_multi; assumption.
  - intros codes Hstr Hiter Htries.
    destruct (get_quote_history_multi_returns (to_list codes)
                (batch_args beg end_ klt fqt kw) st Htries) as (m & st' & Hmulti).
    exists m, st'. apply dispatch_multi; assumption.
  - intros codes out st' Hstr Hiter. split.
    + intros Hrun. inversion Hrun as [s r st0 Hs | m st0 _ Hyes | _ _].
      * subst codes. discriminate.
      * congruence.
      * repeat split.
    + intros (-> & -> & _). apply dispatch_type_error; assumption.
Qed.

(** C10. A [str] is iterable, yet [get_quote_history] hands it to the
    single-item getter: the call ends as that getter does and never with a
    dict. A dict comes back only for an argument that is iterable and not a
    [str]. *)
Theorem string_goes_to_single_fetcher
    (codes : Arg) (beg end_ : string) (klt fqt : Z) (kw : Kwargs)
    (st st' : State) (out : Outcome) :
  get_quote_history codes beg end_ klt fqt kw st out st' →
  (∀ s, codes = ArgStr s →
        has_iter codes = true ∧
        (out, st') =
          (outcome_of (get_quote_history_single s beg end_ klt fqt kw st).1,
           (get_quote_history_single s beg end_ klt fqt kw st).2) ∧
        ∀ m, out ≠ ResultMap m) ∧
  (∀ m, out = ResultMap m → isinstance_str codes = false ∧ has_iter codes = true).
Proof.
  intros Hrun. split.
  - intros s ->. split; [reflexivity|].
    inversion Hrun as [s0 r st0 Hs Hsingle | m st0 Hstr | Hstr]; try discriminate.
    injection Hs as <-. rewrite Hsingle. split; [reflexivity|].
    intros m. apply outcome_of_not_map.
  - intros m ->. inversion Hrun as [s r st0 Hs Hsingle Hout | m0 st0 Hstr Hiter | ].
    + destruct (outcome_of_not_map r m Hout).
    + split; assumption.
Qed.

End DispatchFacts.

(** ** The reference cache *)

Section CacheFacts.
Context `{Env}.

Lemma get_base_info_sends (quote_id : string) (st : State) :
  log (get_base_info quote_id st).2 = log st ++ [base_info_request quote_id] ∧
  BASE_INFO_CACHE (get_base_info quote_id st).2 = BASE_INFO_CACHE st.
Proof.
  unfold get_base_info, to_numeric_series, get_base_info_body, bind, session_get_json.
  destruct (remote (log st) (base_info_request quote_id)) as [e|j]; simpl;
    [split; reflexivity|].
  unfold lift. destruct (subscript j "data") as [items|e]; simpl; [|split; reflexivity].
  destruct (truthy items); simpl; split; reflexivity.
Qed.

Lemma get_base_info_fails (quote_id : string) (st : State) (e : exn) :
  remote (log st) (base_info_request quote_id) = Fails e →
  (get_base_info quote_id st).1 = Raise e.
Proof.
  intros Hdown.
  unfold get_base_info, to_numeric_series, get_base_info_body, bind, session_get_json.
  rewrite Hdown. reflexivity.
Qed.

(** What the lookup of [get_deal_detail] does when the record is already in
    the cache: one request goes out all the same; if it fails the lookup
    raises, otherwise the cached record is returned. *)
Lemma cached_lookup_sends_a_request (quote_id : string) (st : State) (cached : Series) :
  BASE_INFO_CACHE st !! quote_id = Some cached →
  requests_sent (get_deal_detail_base_info quote_id st).2 = S (requests_sent st) ∧
  (∀ e, remote (log st) (base_info_request quote_id) = Fails e →
        (get_deal_detail_base_info quote_id st).1 = Raise e) ∧
  (∀ r, (get_deal_detail_base_info quote_id st).1 = Ok r → r = cached).
Proof.
  intros Hhit.
  pose proof (get_base_info_sends quote_id st) as [Hlog Hcache].
  pose proof (get_base_info_fails quote_id st) as Hfails.
  unfold get_deal_detail_base_info, bind, requests_sent.
  destruct (get_base_info quote_id st) as [[fetched|e] st1]; simpl in *.
  - rewrite Hcache, Hhit, Hlog, length_app. simpl.
    split; [lia|]. split.
    + intros e Hdown. specialize (Hfails e Hdown). discriminate.
    + intros r [= <-]. reflexivity.
  - rewrite Hlog, length_app. simpl.
    split; [lia|]. split.
    + intros e' Hdown. exact (Hfails e' Hdown).
    + intros r Hr. discriminate.
Qed.

End CacheFacts.

(** ** The properties on the test services *)

Section OnQuotes.
#[local] Existing Instance decimal_numbers.
#[local] Existing Instance Sample.quotes_env.

Lemma quotes_batch_reached :
  rtc (step Sample.default_args) (batch_init Sample.fresh Sample.three_codes)
      Sample.quotes_batch.
Proof. apply run_steps. Qed.

Lemma quotes_batch_returned :
  main Sample.quotes_batch = Returned (dfs (shared Sample.quotes_batch)).
Proof. reflexivity. Qed.

(** The batch of three codes returned after its three units had ended. *)
Lemma returns_after_every_unit_ended_witness :
  map unit_code (units Sample.quotes_batch) = Sample.three_codes ∧
  Forall (λ u, pc u = Finished ∨ (∃ e, pc u = Died e) ∨
               (pc u = Skipped ∧ tries Sample.default_args = 0%Z))
         (units Sample.quotes_batch) ∧
  ∀ b', ¬ step Sample.default_args Sample.quotes_batch b'.
Proof.
  destruct (returns_after_every_unit_ended Sample.default_args Sample.fresh
              Sample.three_codes Sample.quotes_batch quotes_batch_reached)
    as [Hret _].
  destruct (Hret _ quotes_batch_returned) as (Hcodes & Hended & _ & Hstuck).
  split; [exact Hcodes|]. split; [exact Hended | exact Hstuck].
Defined.

(** Its keys are the two codes that were fetched. *)
Lemma result_keys_witness :
  dom (dfs (shared Sample.quotes_batch)) =
    list_to_set (map unit_code (List.filter succeeded (units Sample.quotes_batch))) ∧
  map unit_code (List.filter succeeded (units Sample.quotes_batch)) =
    ["1.000001"; "0.399001"] ∧
  dom (dfs (shared Sample.quotes_batch)) ⊆ list_to_set Sample.three_codes.
Proof.
  destruct (result_keys_are_the_fetched_codes Sample.default_args Sample.fresh
              Sample.three_codes Sample.quotes_batch quotes_batch_reached)
    as [Hret _].
  destruct (Hret _ quotes_batch_returned) as (_ & Hkeys & Hsub & _ & _).
  split; [exact Hkeys|]. split; [vm_compute; reflexivity | exact Hsub].
Defined.

(** Its progress counter stopped at 2 of 3. *)
Lemma progress_counts_witness :
  pbar_n (shared Sample.quotes_batch) = 2 ∧ pbar_total (shared Sample.quotes_batch) = 3.
Proof.
  destruct (progress_counts_fetched_units Sample.default_args Sample.fresh
              Sample.three_codes Sample.quotes_batch quotes_batch_reached)
    as (_ & Htotal & Hret & _).
  destruct (Hret _ quotes_batch_returned) as [Hn _].
  split; [rewrite Hn; vm_compute; reflexivity | exact Htotal].
Defined.


(** The instrument with two lines comes back as a table of two rows. *)
Lemma klines_witness :
  ∃ lines name names raw,
    map JStr Sample.ping_an_lines = map JStr lines ∧
    data_name (Sample.payload "Ping An" Sample.ping_an_lines) = Ok name ∧
    column_values name (length lines) = Ok names ∧
    rows raw =
      zip_with (λ nm line,
                  nm :: Str (last_piece (split "." "1.000001"))
                     :: pad (length EASTMONEY_KLINE_FIELDS)
                            (map Str (split "," line)))
               names lines ∧
    columns raw = "名称" :: "代码" :: map snd EASTMONEY_KLINE_FIELDS ∧
    Sample.fetch_with_data.1 = Ok (normalize_frame raw) ∧
    length (rows (normalize_frame raw)) = length lines.
Proof.
  destruct (klines_become_aligned_rows
              "1.000001" "19000101" "20500101" 101 1 Sample.no_kwargs Sample.fresh
              "1.000001" Sample.fresh
              (Sample.payload "Ping An" Sample.ping_an_lines)
              (JStr "2021-01-04,19.10,18.60") [JStr "2021-01-05,18.40,18.17"]
              (normalize_frame Sample.ping_an_raw)
              Sample.fetch_with_data.2)
    as (lines & name & names & raw & Hk & Hname & Hnames & _ & Hrows
        & Hcols & _ & Hdf & Hlen & _); [reflexivity..|].
  exists lines, name, names, raw.
  repeat (split; [assumption|]).
  split; [rewrite <- Hdf; reflexivity | rewrite <- Hdf; exact Hlen].
Defined.

(** A [str] goes to the single-item getter; an [int] is refused before
    anything is sent. *)
Lemma dispatch_witness :
  get_quote_history (ArgStr "1.000001") "19000101" "20500101" 101 1
    Sample.no_kwargs Sample.fresh
    (outcome_of Sample.fetch_with_data.1) Sample.fetch_with_data.2 ∧
  (∃ m st', get_quote_history (ArgList Sample.three_codes) "19000101" "20500101"
              101 1 Sample.no_kwargs Sample.fresh (ResultMap m) st') ∧
  get_quote_history (ArgInt 5) "19000101" "20500101" 101 1
    Sample.no_kwargs Sample.fresh (Raised TypeError) Sample.fresh.
Proof.
  destruct (dispatch_routes_on_input_shape "19000101" "20500101" 101 1
              Sample.no_kwargs Sample.fresh) as (Hstr & _ & Hlist & Hneither).
  split; [|split].
  - apply Hstr. exists Sample.fetch_with_data.1. split; reflexivity.
  - apply Hlist; [reflexivity | reflexivity | simpl; lia].
  - apply Hneither; [reflexivity | reflexivity |]. repeat split.
Defined.

Lemma string_dispatched :
  get_quote_history (ArgStr "1.000001") "19000101" "20500101" 101 1
    Sample.no_kwargs Sample.fresh
    (outcome_of Sample.fetch_with_data.1) Sample.fetch_with_data.2.
Proof. eapply dispatch_single; reflexivity. Qed.

Lemma string_goes_to_single_fetcher_witness :
  has_iter (ArgStr "1.000001") = true ∧
  ∀ m, outcome_of Sample.fetch_with_data.1 ≠ ResultMap m.
Proof.
  destruct (string_goes_to_single_fetcher _ _ _ _ _ _ _ _ _ string_dispatched)
    as [Hstr _].
  destruct (Hstr "1.000001" eq_refl) as (Hiter & _ & Hnot).
  split; [exact Hiter | exact Hnot].
Defined.

(** C2, on the code. The second lookup of a record that the first lookup
    has put into the cache returns the cached record and sends one more
    request to the service; and when the service has gone away, the lookup
    of the cached record raises. *)
Theorem cached_lookup_still_goes_to_the_service :
  BASE_INFO_CACHE Sample.first_lookup.2 !! "1.000001" = Some Sample.ping_an_info ∧
  Sample.second_lookup.1 = Sample.first_lookup.1 ∧
  requests_sent Sample.second_lookup.2 = S (requests_sent Sample.first_lookup.2) ∧
  Sample.lookup_when_down.1 = Raise ConnectionError.
Proof. repeat split; reflexivity. Qed.

End OnQuotes.

Section OnUnreachable.
#[local] Existing Instance decimal_numbers.
#[local] Existing Instance Sample.unreachable_env.

Lemma down_batch_reached :
  rtc (step Sample.default_args) (batch_init Sample.fresh ["BADID"]) Sample.down_batch.
Proof. apply run_steps. Qed.

Lemma down_batch_returned : main Sample.down_batch = Returned ∅.
Proof. reflexivity. Qed.

Lemma down_batch_unit :
  units Sample.down_batch =
    [{| unit_code := "BADID"; pc := Died ConnectionError; attempts := 3 |}].
Proof. reflexivity. Qed.

(** The unit of the unreachable code made three attempts and stored
    nothing. *)
Lemma exhausted_unit_witness :
  attempts {| unit_code := "BADID"; pc := Died ConnectionError; attempts := 3 |} = 3 ∧
  dfs (shared Sample.down_batch) !! "BADID" = None ∧
  pbar_n (shared Sample.down_batch) = 0.
Proof.
  destruct (exhausted_unit_leaves_no_table Sample.default_args Sample.fresh ["BADID"]
              Sample.down_batch
              {| unit_code := "BADID"; pc := Died ConnectionError; attempts := 3 |})
    as (_ & Hended & Hnone & Hn & _ & _).
  - reflexivity.
  - intros served rq. exists ConnectionError. reflexivity.
  - exact down_batch_reached.
  - rewrite down_batch_unit. apply list_elem_of_here.
  - split; [apply Hended; reflexivity|]. split; [exact Hnone | exact Hn].
Defined.

(** C1, refuted as stated: the batch of the one code ["BADID"] against the
    unreachable service returns a dict whose key set is not the input set. *)
Lemma unreachable_batch_drops_its_key :
  ∃ b m, rtc (step Sample.default_args) (batch_init Sample.fresh ["BADID"]) b ∧
         main b = Returned m ∧
         dom m ≠ list_to_set ["BADID"].
Proof.
  exists Sample.down_batch, ∅.
  split; [exact down_batch_reached|]. split; [exact down_batch_returned|].
  rewrite dom_empty_L. intros Heq.
  assert (Hin : "BADID" ∈ (∅ : gset string)).
  { rewrite Heq. apply elem_of_list_to_set. apply list_elem_of_here. }
  exact (not_elem_of_empty _ Hin).
Qed.

(** C3, refuted as stated: with [tries = 3] against the unreachable service
    the unit of ["BADID"] makes its three attempts and ends, and the batch
    returns, with no table for ["BADID"], so without an empty one. *)
Lemma unreachable_unit_records_no_empty_table :
  ∃ b m u, rtc (step Sample.default_args) (batch_init Sample.fresh ["BADID"]) b ∧
           main b = Returned m ∧
           units b = [u] ∧ unit_code u = "BADID" ∧ attempts u = 3 ∧
           terminated u = true ∧
           m !! "BADID" = None ∧
           m !! "BADID" ≠ Some (empty_frame kline_schema).
Proof.
  exists Sample.down_batch, ∅,
    {| unit_code := "BADID"; pc := Died ConnectionError; attempts := 3 |}.
  split; [exact down_batch_reached|]. split; [exact down_batch_returned|].
  split; [exact down_batch_unit|]. repeat (split; [reflexivity|]).
  rewrite lookup_empty. discriminate.
Qed.

(** C4, refuted as stated: after the same batch the progress counter is 0,
    not the number of input identifiers. *)
Lemma unreachable_batch_leaves_counter_at_zero :
  ∃ b m, rtc (step Sample.default_args) (batch_init Sample.fresh ["BADID"]) b ∧
         main b = Returned m ∧
         pbar_n (shared b) = 0 ∧
         pbar_n (shared b) ≠ length ["BADID"].
Proof.
  exists Sample.down_batch, ∅.
  split; [exact down_batch_reached|]. split; [exact down_batch_returned|].
  split; [vm_compute; reflexivity | vm_compute; discriminate].
Qed.

End OnUnreachable.

(** ** Further properties of the single-item getters *)

Section MoreGetterFacts.
Context `{Env}.

(** [get_quote_history_single] after its request has been answered with
    lines. *)
Lemma get_quote_history_single_with_lines
    code beg end_ klt fqt kw st quote_id st1 j kline klines :
  quote_id_of code kw st = (Ok quote_id, st1) →
  remote (log st1) (kline_request quote_id beg end_ klt fqt) = Body j →
  jsonpath_klines j = kline :: klines →
  get_quote_history_single code beg end_ klt fqt kw st =
    (table_of_lines (map snd EASTMONEY_KLINE_FIELDS) (data_name j) quote_id
       (kline :: klines),
     sent (kline_request quote_id beg end_ klt fqt) st1).
Proof.
  intros Hq Hj Hlines.
  unfold get_quote_history_single, to_numeric, get_quote_history_single_body, bind.
  rewrite Hq, (session_get_json_body _ _ _ Hj), Hlines.
  unfold table_of_lines, lift, ret.
  destruct (result_map split_kline (kline :: klines)) as [rs|e]; [simpl|reflexivity].
  destruct (data_name j) as [name|e]; [simpl|reflexivity].
  destruct (frame_of_rows rs _) as [df0|e]; [simpl|reflexivity].
  destruct (insert0 "代码" _ df0) as [df1|e]; [simpl|reflexivity].
  destruct (insert0 "名称" name df1) as [df2|e]; reflexivity.
Qed.

(** The same for [get_history_bill], which reads the name with
    [jsonpath(json_response, '$..name')[0]]. *)
Lemma get_history_bill_with_lines code st quote_id st1 j kline klines :
  get_quote_id code st = (Ok quote_id, st1) →
  remote (log st1) (bill_request quote_id) = Body j →
  jsonpath_klines j = kline :: klines →
  get_history_bill code st =
    (table_of_lines (map snd EASTMONEY_HISTORY_BILL_FIELDS)
       (first_match (jsonpath_name j)) quote_id (kline :: klines),
     sent (bill_request quote_id) st1).
Proof.
  intros Hq Hj Hlines.
  unfold get_history_bill, to_numeric, get_history_bill_body, bind.
  rewrite Hq, (session_get_json_body _ _ _ Hj), Hlines.
  unfold table_of_lines, lift, ret.
  destruct (result_map split_kline (kline :: klines)) as [rs|e]; [simpl|reflexivity].
  destruct (first_match (jsonpath_name j)) as [name|e]; [simpl|reflexivity].
  destruct (frame_of_rows rs _) as [df0|e]; [simpl|reflexivity].
  destruct (insert0 "代码" _ df0) as [df1|e]; [simpl|reflexivity].
  destruct (insert0 "名称" name df1) as [df2|e]; reflexivity.
Qed.

(** [get_today_bill] after its request has been answered: the name is read
    first, then the lines are looked at. *)
Lemma get_today_bill_answered code st quote_id st1 j :
  get_quote_id code st = (Ok quote_id, st1) →
  remote (log st1) (today_bill_request quote_id) = Body j →
  get_today_bill code st =
    (result_bind (first_match (jsonpath_name j)) (λ name,
       match jsonpath_klines j with
       | [] => Ok (empty_frame ("名称" :: "代码" :: today_bill_columns))
       | klines => table_of_lines today_bill_columns (Ok name) quote_id klines
       end),
     sent (today_bill_request quote_id) st1).
Proof.
  intros Hq Hj.
  unfold get_today_bill, to_numeric, get_today_bill_body, bind.
  rewrite Hq, (session_get_json_body _ _ _ Hj).
  unfold table_of_lines, lift, ret.
  destruct (first_match (jsonpath_name j)) as [name|e]; [|reflexivity].
  destruct (jsonpath_klines j) as [|kline klines]; [reflexivity|].
  cbn -[result_map frame_of_rows insert0 normalize_frame].
  destruct (result_map split_kline (kline :: klines)) as [rs|e]; [|reflexivity].
  cbn -[result_map frame_of_rows insert0 normalize_frame].
  destruct (frame_of_rows rs today_bill_columns) as [df0|e]; [|reflexivity].
  cbn -[result_map frame_of_rows insert0 normalize_frame].
  destruct (insert0 "代码" _ df0) as [df1|e]; [|reflexivity].
  cbn -[result_map frame_of_rows insert0 normalize_frame].
  destruct (insert0 "名称" name df1) as [df2|e]; reflexivity.
Qed.

(** A table built from lines: what went into it. *)
Lemma table_of_lines_ok cols name quote_id klines df :
  table_of_lines cols name quote_id klines = Ok df →
  klines ≠ [] →
  ∃ lines value names raw,
    klines = map JStr lines ∧
    name = Ok value ∧
    column_values value (length lines) = Ok names ∧
    rows raw =
      zip_with (λ nm line,
                  nm :: Str (last_piece (split "." quote_id))
                     :: pad (length cols) (map Str (split "," line)))
               names lines ∧
    columns raw = "名称" :: "代码" :: cols ∧
    well_formed raw ∧
    df = normalize_frame raw ∧
    length (rows df) = length lines.
Proof.
  unfold table_of_lines. intros Hrun Hlines.
  destruct (result_map split_kline klines) as [rs|e] eqn:Hrs; [simpl in Hrun|discriminate].
  destruct name as [value|e]; [simpl in Hrun|discriminate].
  destruct (frame_of_rows rs cols) as [df0|e] eqn:Hdf0; [simpl in Hrun|discriminate].
  destruct (insert0 "代码" _ df0) as [df1|e] eqn:Hdf1; [simpl in Hrun|discriminate].
  destruct (insert0 "名称" value df1) as [df2|e] eqn:Hdf2; [simpl in Hrun|discriminate].
  injection Hrun as <-.
  destruct (rows_of_klines _ _ _ _ _ _ _ _ Hrs Hdf0 Hdf1 Hdf2)
    as (lines & names & Hk & Hnames & Hcols & Hrows & Hwf).
  exists lines, value, names, df2. repeat (split; [assumption || reflexivity|]).
  rewrite normalize_frame_rows_length, Hrows, length_zip_with.
  apply column_values_length in Hnames. lia.
Qed.

(** X2. Whatever [get_today_bill] returns is a table with the eight columns
    of its schema (name, code and the six flow columns), every row of full
    width, and its payload had a [name] member. *)
Theorem get_today_bill_schema code st quote_id st1 j df st' :
  get_quote_id code st = (Ok quote_id, st1) →
  remote (log st1) (today_bill_request quote_id) = Body j →
  get_today_bill code st = (Ok df, st') →
  columns df = "名称" :: "代码" :: today_bill_columns ∧
  well_formed df ∧
  (jsonpath_klines j = [] → rows df = []) ∧
  length (rows df) = length (jsonpath_klines j) ∧
  jsonpath_name j ≠ [].
Proof.
  intros Hq Hj Hrun. rewrite (get_today_bill_answered _ _ _ _ _ Hq Hj) in Hrun.
  injection Hrun as Hrun _.
  destruct (jsonpath_name j) as [|name rest]; [discriminate|]. simpl in Hrun.
  destruct (jsonpath_klines j) as [|kline klines] eqn:Hlines.
  - injection Hrun as <-. repeat split; (reflexivity || constructor || discriminate).
  - apply table_of_lines_ok in Hrun as
      (lines & value & names & raw & Hk & _ & _ & _ & Hcols & Hwf & -> & Hlen);
      [|discriminate].
    split; [exact Hcols|]. split; [apply normalize_frame_well_formed; exact Hwf|].
    split; [discriminate|]. split; [|discriminate].
    rewrite Hlen, Hk, length_map. reflexivity.
Qed.

(** X3. When the payload holds lines, the table [get_history_bill] returns
    has one row per line: the normaliser's image of the table whose row [i]
    is the name, the code and the pieces of line [i], where the name is the
    first member called [name] found anywhere in the payload. Exactly one
    request was sent for it. *)
Theorem history_bill_lines_become_rows
    code st quote_id st1 j kline klines df st' :
  get_quote_id code st = (Ok quote_id, st1) →
  remote (log st1) (bill_request quote_id) = Body j →
  jsonpath_klines j = kline :: klines →
  get_history_bill code st = (Ok df, st') →
  ∃ lines name others names raw,
    kline :: klines = map JStr lines ∧
    jsonpath_name j = name :: others ∧
    column_values name (length lines) = Ok names ∧
    rows raw =
      zip_with (λ nm line,
                  nm :: Str (last_piece (split "." quote_id))
                     :: pad (length EASTMONEY_HISTORY_BILL_FIELDS)
                            (map Str (split "," line)))
               names lines ∧
    columns raw = "名称" :: "代码" :: map snd EASTMONEY_HISTORY_BILL_FIELDS ∧
    well_formed raw ∧
    df = normalize_frame raw ∧
    length (rows df) = length lines ∧
    st' = sent (bill_request quote_id) st1.
Proof.
  intros Hq Hj Hlines Hrun.
  rewrite (get_history_bill_with_lines _ _ _ _ _ _ _ Hq Hj Hlines) in Hrun.
  injection Hrun as Hrun <-.
  apply table_of_lines_ok in Hrun as
    (lines & value & names & raw & Hk & Hname & Hnames & Hrows & Hcols & Hwf & Hdf & Hlen);
    [|discriminate].
  destruct (jsonpath_name j) as [|name others]; [discriminate|].
  injection Hname as ->.
  exists lines, value, others, names, raw.
  rewrite length_map in Hrows.
  repeat (split; [assumption || reflexivity|]). reflexivity.
Qed.

Lemma result_map_split_kline_strings (lines : list string) :
  result_map split_kline (map JStr lines) =
  Ok (map (λ line, map Str (split "," line)) lines).
Proof.
  induction lines as [|line lines IH]; [reflexivity|].
  simpl. rewrite IH. reflexivity.
Qed.

Lemma result_map_split_kline_raise (klines : list Json) (e : exn) :
  result_map split_kline klines = Raise e → e = AttributeError.
Proof.
  induction klines as [|k klines IH]; [discriminate|]. simpl.
  destruct k; simpl; try (intros [= <-]; reflexivity).
  destruct (result_map split_kline klines) as [rs|e']; simpl; [discriminate|].
  intros [= <-]. apply IH. reflexivity.
Qed.

Lemma width_widest (lines : list string) :
  width (map (λ line, map Str (split "," line)) lines) = widest lines.
Proof.
  induction lines as [|line lines IH]; [reflexivity|].
  simpl. rewrite IH, length_map. reflexivity.
Qed.

(** X4. What [get_quote_history_single] does with a payload that has lines
    but is not as expected, in the order the code meets the defects: a line
    that is not a [str] raises [AttributeError]; otherwise a payload without
    [data.name] raises the [KeyError] or [TypeError] of the subscript;
    otherwise lines whose widest has more or fewer pieces than the field
    table has entries raise [ValueError]. In every case the request has been
    sent. *)
Theorem malformed_payload_raises
    code beg end_ klt fqt kw st quote_id st1 j kline klines :
  quote_id_of code kw st = (Ok quote_id, st1) →
  remote (log st1) (kline_request quote_id beg end_ klt fqt) = Body j →
  jsonpath_klines j = kline :: klines →
  (get_quote_history_single code beg end_ klt fqt kw st).2 =
    sent (kline_request quote_id beg end_ klt fqt) st1 ∧
  ((∀ lines, kline :: klines ≠ map JStr lines) →
   (get_quote_history_single code beg end_ klt fqt kw st).1 = Raise AttributeError) ∧
  (∀ lines e, kline :: klines = map JStr lines → data_name j = Raise e →
   (get_quote_history_single code beg end_ klt fqt kw st).1 = Raise e) ∧
  (∀ lines name, kline :: klines = map JStr lines → data_name j = Ok name →
   widest lines ≠ length EASTMONEY_KLINE_FIELDS →
   (get_quote_history_single code beg end_ klt fqt kw st).1 = Raise ValueError).
Proof.
  intros Hq Hj Hlines.
  rewrite (get_quote_history_single_with_lines _ _ _ _ _ _ _ _ _ _ _ _ Hq Hj Hlines).
  simpl. split; [reflexivity|]. unfold table_of_lines. split; [|split].
  - intros Hnot.
    destruct (result_map split_kline (kline :: klines)) as [rs|e] eqn:Hrs.
    + apply split_kline_ok in Hrs as (lines & Hk & _). destruct (Hnot lines Hk).
    + apply result_map_split_kline_raise in Hrs as ->. reflexivity.
  - intros lines e -> Hname.
    rewrite result_map_split_kline_strings, Hname. reflexivity.
  - intros lines name Hk Hname Hwide. rewrite Hk.
    rewrite result_map_split_kline_strings, Hname. simpl.
    unfold frame_of_rows.
    destruct lines as [|line lines]; [discriminate|].
    change (map _ (line :: lines)) with
      (map (λ line, map Str (split "," line)) (line :: lines)) at 1.
    destruct (map (λ line0 : string, map Str (split "," line0)) (line :: lines))
      as [|r rs] eqn:Hrs; [discriminate|].
    rewrite <- Hrs, width_widest, length_map.
    destruct (decide (widest (line :: lines) = length EASTMONEY_KLINE_FIELDS));
      [contradiction | reflexivity].
Qed.

Lemma get_quote_history_single_after_resolving
    code beg end_ klt fqt kw st quote_id st1 :
  quote_id_of code kw st = (Ok quote_id, st1) →
  (get_quote_history_single code beg end_ klt fqt kw st).2 =
    sent (kline_request quote_id beg end_ klt fqt) st1 ∧
  ∀ e, remote (log st1) (kline_request quote_id beg end_ klt fqt) = Fails e →
       (get_quote_history_single code beg end_ klt fqt kw st).1 = Raise e.
Proof.
  intros Hq.
  destruct (remote (log st1) (kline_request quote_id beg end_ klt fqt))
    as [e|j] eqn:Hj.
  - assert (Hrun : get_quote_history_single code beg end_ klt fqt kw st =
                   (Raise e, sent (kline_request quote_id beg end_ klt fqt) st1)).
    { unfold get_quote_history_single, to_numeric, get_quote_history_single_body,
        bind, session_get_json.
      rewrite Hq, Hj. reflexivity. }
    rewrite Hrun. split; [reflexivity|]. intros e' [= <-]. reflexivity.
  - split; [|discriminate].
    destruct (jsonpath_klines j) as [|kline klines] eqn:Hlines.
    + rewrite (get_quote_history_single_no_data _ _ _ _ _ _ _ _ _ _ Hlines Hq Hj).
      reflexivity.
    + rewrite (get_quote_history_single_with_lines _ _ _ _ _ _ _ _ _ _ _ _ Hq Hj Hlines).
      reflexivity.
Qed.

(** The outcome of a fetch is read off the answer to its one request. *)
Lemma fetch_outcome_of_reply code beg end_ klt fqt kw st quote_id st1 :
  quote_id_of code kw st = (Ok quote_id, st1) →
  (get_quote_history_single code beg end_ klt fqt kw st).1 =
    match remote (log st1) (kline_request quote_id beg end_ klt fqt) with
    | Fails e => Raise e
    | Body j =>
        match jsonpath_klines j with
        | [] => Ok (empty_frame kline_schema)
        | klines =>
            table_of_lines (map snd EASTMONEY_KLINE_FIELDS) (data_name j)
              quote_id klines
        end
    end.
Proof.
  intros Hq.
  destruct (remote (log st1) (kline_request quote_id beg end_ klt fqt))
    as [e|j] eqn:Hj.
  - apply (get_quote_history_single_after_resolving _ beg end_ klt fqt _ _ _ _ Hq).
    exact Hj.
  - destruct (jsonpath_klines j) as [|kline klines] eqn:Hlines.
    + rewrite (get_quote_history_single_no_data _ _ _ _ _ _ _ _ _ _ Hlines Hq Hj).
      reflexivity.
    + rewrite (get_quote_history_single_with_lines _ _ _ _ _ _ _ _ _ _ _ _ Hq Hj Hlines).
      reflexivity.
Qed.

(** When the service answers a request the same whatever was asked before,
    and the resolver gives the same outcome in every state, the outcome of a
    fetch does not depend on the state it runs in. *)
Lemma fetch_outcome_state_independent code beg end_ klt fqt kw :
  (∀ served1 served2 rq, remote served1 rq = remote served2 rq) →
  (∀ s1 s2, (quote_id_of code kw s1).1 = (quote_id_of code kw s2).1) →
  ∀ s1 s2,
    (get_quote_history_single code beg end_ klt fqt kw s1).1 =
    (get_quote_history_single code beg end_ klt fqt kw s2).1.
Proof.
  intros Hservice Hresolver s1 s2.
  specialize (Hresolver s1 s2).
  destruct (quote_id_of code kw s1) as [[q1|e1] t1] eqn:Hq1;
    destruct (quote_id_of code kw s2) as [[q2|e2] t2] eqn:Hq2;
    simpl in Hresolver; try discriminate.
  - injection Hresolver as ->.
    rewrite (fetch_outcome_of_reply _ beg end_ klt fqt _ _ _ _ Hq1),
            (fetch_outcome_of_reply _ beg end_ klt fqt _ _ _ _ Hq2).
    rewrite (Hservice (log t1) (log t2)). reflexivity.
  - injection Hresolver as ->.
    unfold get_quote_history_single, to_numeric, get_quote_history_single_body, bind.
    rewrite Hq1, Hq2. reflexivity.
Qed.

(** X5. One call of [get_quote_history_single] is one request. If the
    resolver raises, its exception comes out and nothing has been sent by
    the getter; once the quote id is known, exactly the k-line request of that
    id is added to what has been sent, whatever the outcome, and an
    exception of the transport comes out as it is; with [quote_id_mode] the
    code is used as the quote id without asking the resolver, and the cache
    of reference records is not touched. *)
Theorem single_fetch_sends_one_request code beg end_ klt fqt kw st :
  (∀ e st1, quote_id_of code kw st = (Raise e, st1) →
     get_quote_history_single code beg end_ klt fqt kw st = (Raise e, st1)) ∧
  (∀ quote_id st1, quote_id_of code kw st = (Ok quote_id, st1) →
     (get_quote_history_single code beg end_ klt fqt kw st).2 =
       sent (kline_request quote_id beg end_ klt fqt) st1 ∧
     ∀ e, remote (log st1) (kline_request quote_id beg end_ klt fqt) = Fails e →
          (get_quote_history_single code beg end_ klt fqt kw st).1 = Raise e) ∧
  (quote_id_mode kw = true →
     log (get_quote_history_single code beg end_ klt fqt kw st).2 =
       log st ++ [kline_request code beg end_ klt fqt] ∧
     BASE_INFO_CACHE (get_quote_history_single code beg end_ klt fqt kw st).2 =
       BASE_INFO_CACHE st).
Proof.
  split; [|split].
  - intros e st1 Hq.
    unfold get_quote_history_single, to_numeric, get_quote_history_single_body, bind.
    rewrite Hq. reflexivity.
  - intros quote_id st1 Hq. apply get_quote_history_single_after_resolving. exact Hq.
  - intros Hmode.
    assert (Hq : quote_id_of code kw st = (Ok code, st))
      by (unfold quote_id_of; rewrite Hmode; reflexivity).
    destruct (get_quote_history_single_after_resolving _ beg end_ klt fqt _ _ _ _ Hq)
      as [-> _].
    split; reflexivity.
Qed.

(** *** The code column *)

Lemma split_not_nil (sep : Ascii.ascii) (s : string) : split sep s ≠ [].
Proof.
  destruct s as [|c rest]; simpl; [discriminate|].
  destruct (Ascii.eqb c sep); [discriminate|].
  destruct (split sep rest); discriminate.
Qed.

Lemma split_without_sep (sep : Ascii.ascii) (s : string) :
  occurs sep s = false → split sep s = [s].
Proof.
  induction s as [|c rest IH]; [reflexivity|]. simpl.
  destruct (Ascii.eqb c sep); simpl; [discriminate|].
  intros Hrest. rewrite (IH Hrest). reflexivity.
Qed.

Lemma split_at_sep (sep : Ascii.ascii) (a c : string) :
  ∃ front, split sep (a +:+ String sep c) = front ++ split sep c ∧ front ≠ [].
Proof.
  induction a as [|x a IH]; simpl.
  - rewrite Ascii.eqb_refl. exists [EmptyString]. split; [reflexivity | discriminate].
  - destruct IH as (front & -> & Hfront).
    destruct (Ascii.eqb x sep).
    + exists (EmptyString :: front). split; [reflexivity | discriminate].
    + destruct front as [|piece pieces]; [contradiction|]. simpl.
      exists (String x piece :: pieces). split; [reflexivity | discriminate].
Qed.

(** [quote_id.split('.')[-1]] is what follows the last dot. *)
Lemma last_piece_after_sep (sep : Ascii.ascii) (a c : string) :
  occurs sep c = false →
  last_piece (split sep (a +:+ String sep c)) = c.
Proof.
  intros Hc. destruct (split_at_sep sep a c) as (front & -> & _).
  rewrite (split_without_sep _ _ Hc). unfold last_piece. apply List.last_last.
Qed.

Lemma last_piece_without_sep (sep : Ascii.ascii) (s : string) :
  occurs sep s = false → last_piece (split sep s) = s.
Proof. intros Hs. rewrite (split_without_sep _ _ Hs). reflexivity. Qed.

(** X6. The code column of a table of lines holds what follows the last
    dot of the quote id (the whole id when it has no dot), on every row,
    before the normaliser looks at it; it is the second column, after the
    name. *)
Theorem code_column_follows_the_last_dot
    code beg end_ klt fqt kw st quote_id tail st1 j kline klines df st' :
  (occurs "." quote_id = false ∧ tail = quote_id ∨
   ∃ market, occurs "." tail = false ∧ quote_id = market +:+ String "." tail) →
  quote_id_of code kw st = (Ok quote_id, st1) →
  remote (log st1) (kline_request quote_id beg end_ klt fqt) = Body j →
  jsonpath_klines j = kline :: klines →
  get_quote_history_single code beg end_ klt fqt kw st = (Ok df, st') →
  ∃ raw, df = normalize_frame raw ∧
         rows raw ≠ [] ∧
         Forall (λ r, r !! 1 = Some (Str tail)) (rows raw) ∧
         columns df !! 1 = Some "代码".
Proof.
  intros Htail Hq Hj Hlines Hrun.
  rewrite (get_quote_history_single_with_lines _ _ _ _ _ _ _ _ _ _ _ _ Hq Hj Hlines) in Hrun.
  injection Hrun as Hrun _.
  apply table_of_lines_ok in Hrun as
    (lines & value & names & raw & Hk & _ & Hnames & Hrows & Hcols & _ & -> & _);
    [|discriminate].
  assert (Hcode : last_piece (split "." quote_id) = tail).
  { destruct Htail as [[Hno ->] | (market & Hno & ->)].
    - apply last_piece_without_sep. exact Hno.
    - apply last_piece_after_sep. exact Hno. }
  rewrite Hcode in Hrows. apply column_values_length in Hnames.
  exists raw. split; [reflexivity|].
  destruct lines as [|line lines]; [discriminate|].
  destruct names as [|nm names]; [discriminate|].
  split; [rewrite Hrows; discriminate|]. split.
  - rewrite Hrows. clear. generalize (nm :: names). generalize (line :: lines).
    intros ls. induction ls as [|l ls IH]; intros [|n ns]; simpl; constructor.
    + reflexivity.
    + apply IH.
  - rewrite normalize_frame_columns, Hcols. reflexivity.
Qed.

End MoreGetterFacts.

(** ** Further properties of the reference records *)

Section MoreCacheFacts.
Context `{Env}.

Lemma convert_nan : convert NaN = NaN.
Proof. reflexivity. Qed.

Lemma normalize_empty_series (labels : list string) :
  normalize_series (empty_series labels) = empty_series labels.
Proof.
  unfold normalize_series, empty_series. rewrite <- list_fmap_compose.
  apply list_fmap_ext. intros _ l _. reflexivity.
Qed.

(** X7. [get_base_info] sends exactly one request and leaves the cache as it
    is, whatever comes back. A payload whose [data] is falsy ([null], an
    empty dict or list, ...) gives the record of all declared labels with
    every value [nan]; a payload without [data] raises [KeyError], and one
    that is not a dict raises [TypeError]. *)
Theorem get_base_info_without_data (quote_id : string) (st : State) :
  log (get_base_info quote_id st).2 = log st ++ [base_info_request quote_id] ∧
  BASE_INFO_CACHE (get_base_info quote_id st).2 = BASE_INFO_CACHE st ∧
  (∀ j items,
     remote (log st) (base_info_request quote_id) = Body j →
     subscript j "data" = Ok items → truthy items = false →
     (get_base_info quote_id st).1 =
       Ok (map (λ l, (LStr l, NaN)) (map snd EASTMONEY_BASE_INFO_FIELDS))) ∧
  (∀ members,
     remote (log st) (base_info_request quote_id) = Body (JObj members) →
     member "data" members = None →
     (get_base_info quote_id st).1 = Raise (KeyError "data")) ∧
  (∀ j,
     remote (log st) (base_info_request quote_id) = Body j →
     (∀ members, j ≠ JObj members) →
     (get_base_info quote_id st).1 = Raise TypeError).
Proof.
  destruct (get_base_info_sends quote_id st) as [Hlog Hcache].
  split; [exact Hlog|]. split; [exact Hcache|]. split; [|split].
  - intros j items Hj Hdata Hfalsy.
    unfold get_base_info, to_numeric_series, get_base_info_body, bind, lift.
    rewrite (session_get_json_body _ _ _ Hj), Hdata, Hfalsy. simpl.
    rewrite normalize_empty_series. reflexivity.
  - intros members Hj Hnone.
    unfold get_base_info, to_numeric_series, get_base_info_body, bind, lift.
    rewrite (session_get_json_body _ _ _ Hj). simpl. rewrite Hnone. reflexivity.
  - intros j Hj Hnot.
    unfold get_base_info, to_numeric_series, get_base_info_body, bind, lift.
    rewrite (session_get_json_body _ _ _ Hj).
    destruct j; try reflexivity. destruct (Hnot members eq_refl).
Qed.

Lemma lookup_ok (quote_id : string) (st st' : State) (r : Series) :
  get_deal_detail_base_info quote_id st = (Ok r, st') →
  ∃ fetched st1,
    get_base_info quote_id st = (Ok fetched, st1) ∧
    r = default fetched (BASE_INFO_CACHE st !! quote_id) ∧
    log st' = log st1 ∧
    BASE_INFO_CACHE st' = <[quote_id := r]> (BASE_INFO_CACHE st).
Proof.
  unfold get_deal_detail_base_info, cache_store, bind, ret.
  pose proof (get_base_info_sends quote_id st) as [_ Hcache].
  destruct (get_base_info quote_id st) as [[fetched|e] st1]; [|discriminate].
  simpl in Hcache. intros [= <- <-]. exists fetched, st1. rewrite Hcache.
  repeat split.
Qed.

(** X8. The lookup of [get_deal_detail] keeps what it returns: after a
    lookup that returned a record, the cache holds that record under the
    quote id and is unchanged elsewhere; if the quote id was cached already
    the cache is the same as before; a lookup that raises leaves the cache
    as it was; and a later lookup of the same quote id that returns at all
    returns the same record, whatever the service answers then. *)
Theorem lookup_keeps_the_first_record (quote_id : string) (st : State) :
  (∀ r st',
     get_deal_detail_base_info quote_id st = (Ok r, st') →
     BASE_INFO_CACHE st' !! quote_id = Some r ∧
     (∀ other, other ≠ quote_id →
               BASE_INFO_CACHE st' !! other = BASE_INFO_CACHE st !! other) ∧
     (is_Some (BASE_INFO_CACHE st !! quote_id) →
      BASE_INFO_CACHE st' = BASE_INFO_CACHE st) ∧
     (∀ r2 st2, get_deal_detail_base_info quote_id st' = (Ok r2, st2) →
                r2 = r ∧ BASE_INFO_CACHE st2 = BASE_INFO_CACHE st')) ∧
  (∀ e st',
     get_deal_detail_base_info quote_id st = (Raise e, st') →
     BASE_INFO_CACHE st' = BASE_INFO_CACHE st).
Proof.
  split.
  - intros r st' Hrun.
    apply lookup_ok in Hrun as (fetched & st1 & _ & Hr & _ & Hcache).
    split; [rewrite Hcache; apply lookup_insert_eq|].
    split; [intros other Hne; rewrite Hcache; apply lookup_insert_ne; congruence|].
    split.
    + intros [cached Hhit]. rewrite Hcache. rewrite Hhit in Hr. simpl in Hr. subst r.
      apply insert_id. exact Hhit.
    + intros r2 st2 Hrun2.
      apply lookup_ok in Hrun2 as (fetched2 & st3 & _ & Hr2 & _ & Hcache2).
      rewrite Hcache, lookup_insert_eq in Hr2. simpl in Hr2. subst r2.
      split; [reflexivity|]. rewrite Hcache2. apply insert_id.
      rewrite Hcache. apply lookup_insert_eq.
  - intros e st'.
    unfold get_deal_detail_base_info, cache_store, bind, ret.
    pose proof (get_base_info_sends quote_id st) as [_ Hcache].
    destruct (get_base_info quote_id st) as [[fetched|e'] st1]; [discriminate|].
    simpl in Hcache. intros [= <- <-]. exact Hcache.
Qed.

(** [get_base_info] on a payload whose [data] is falsy. *)
Lemma get_base_info_falsy (quote_id : string) (st : State) (j items : Json) :
  remote (log st) (base_info_request quote_id) = Body j →
  subscript j "data" = Ok items →
  truthy items = false →
  get_base_info quote_id st =
    (Ok (empty_series (map snd EASTMONEY_BASE_INFO_FIELDS)),
     sent (base_info_request quote_id) st).
Proof.
  intros Hj Hdata Hfalsy.
  unfold get_base_info, to_numeric_series, get_base_info_body, bind, lift.
  rewrite (session_get_json_body _ _ _ Hj), Hdata, Hfalsy. simpl.
  unfold ret. rewrite normalize_empty_series. reflexivity.
Qed.

(** X16. An instrument once found without data stays without data: when
    the quote id is not cached and the payload's [data] is falsy, the lookup
    of [get_deal_detail] returns the record whose values are all [nan] and
    stores it in the cache under the quote id; every later lookup of that
    quote id that returns at all returns this record again, whatever the
    service answers by then. *)
Theorem record_without_data_is_kept
    (quote_id : string) (st : State) (j items : Json) :
  BASE_INFO_CACHE st !! quote_id = None →
  remote (log st) (base_info_request quote_id) = Body j →
  subscript j "data" = Ok items →
  truthy items = false →
  ∃ st1,
    get_deal_detail_base_info quote_id st =
      (Ok (empty_series (map snd EASTMONEY_BASE_INFO_FIELDS)), st1) ∧
    log st1 = log st ++ [base_info_request quote_id] ∧
    BASE_INFO_CACHE st1 =
      <[quote_id := empty_series (map snd EASTMONEY_BASE_INFO_FIELDS)]>
        (BASE_INFO_CACHE st) ∧
    ∀ r st2, get_deal_detail_base_info quote_id st1 = (Ok r, st2) →
             r = empty_series (map snd EASTMONEY_BASE_INFO_FIELDS) ∧
             BASE_INFO_CACHE st2 = BASE_INFO_CACHE st1.
Proof.
  intros Hmiss Hj Hdata Hfalsy.
  pose proof (get_base_info_falsy _ _ _ _ Hj Hdata Hfalsy) as Hfetch.
  assert (Hrun : get_deal_detail_base_info quote_id st =
                 (Ok (empty_series (map snd EASTMONEY_BASE_INFO_FIELDS)),
                  {| log := log st ++ [base_info_request quote_id];
                     BASE_INFO_CACHE :=
                       <[quote_id := empty_series (map snd EASTMONEY_BASE_INFO_FIELDS)]>
                         (BASE_INFO_CACHE st) |})).
  { unfold get_deal_detail_base_info, cache_store, bind, ret.
    rewrite Hfetch. simpl. rewrite Hmiss. reflexivity. }
  eexists. split; [exact Hrun|]. split; [reflexivity|]. split; [reflexivity|].
  intros r st2 Hagain.
  apply lookup_ok in Hagain as (fetched & st3 & _ & Hr & _ & Hcache).
  simpl in Hr, Hcache. rewrite lookup_insert_eq in Hr. simpl in Hr. subst r.
  split; [reflexivity|]. rewrite Hcache. simpl. apply insert_id.
  apply lookup_insert_eq.
Qed.

End MoreCacheFacts.

(** ** Further properties of the batch orchestrator *)

Section MoreBatchFacts.
Context `{Env}.
Context (args : BatchArgs).

(** What the tables and the exceptions in a batch come from: a table in
    [dfs] or about to be stored was fetched for the code it stands under,
    and a unit that died did so with an exception of a fetch for its code. *)
Lemma tables_and_exceptions_come_from_fetches
    (st : State) (codes : list string) (b : Batch) :
  rtc (step args) (batch_init st codes) b →
  (∀ code df, dfs (shared b) !! code = Some df → fetched_for args code df) ∧
  Forall (λ u, (∀ df, pc u = Fetched df → fetched_for args (unit_code u) df) ∧
               (∀ e, pc u = Died e → raised_for args (unit_code u) e)) (units b).
Proof.
  revert b. apply batch_ind.
  - split; [|constructor]. intros code df Hin. simpl in Hin.
    rewrite lookup_empty in Hin. discriminate.
  - intros b b' _ IH Hm. main_step_cases Hm b; simpl in *; try exact IH.
    destruct IH as [IHd IHu]. split; [exact IHd|].
    apply Forall_app. split; [exact IHu|]. constructor; [|constructor].
    split; intros ? ?; discriminate.
  - intros b l1 u l2 sh' u' _ [IHd IHu] Hl Hu. rewrite Hl in IHu. simpl.
    apply Forall_app in IHu as [IH1 IH2]. apply Forall_cons in IH2 as [[IHf IHe] IH2].
    rewrite Forall_app, Forall_cons.
    unit_step_cases Hu u; simpl in *;
      try (split; [exact IHd | split; [exact IH1 | split; [|exact IH2]]];
           split; intros ? ?; discriminate).
    + split; [exact IHd | split; [exact IH1 | split; [|exact IH2]]].
      split; [|intros ? ?; discriminate].
      intros df' [= <-]. eexists _, _. exact Hfetch.
    + split; [exact IHd | split; [exact IH1 | split; [|exact IH2]]].
      split; [intros ? ?; discriminate|].
      intros e' [= <-]. eexists _, _. exact Hfetch.
    + split; [|split; [exact IH1 | split; [|exact IH2]]].
      * intros code' df' Hin. destruct (decide (code = code')) as [<-|Hne].
        -- rewrite lookup_insert_eq in Hin. injection Hin as <-.
           apply IHf. reflexivity.
        -- rewrite lookup_insert_ne in Hin by exact Hne. eapply IHd. exact Hin.
      * split; intros ? ?; discriminate.
Qed.

Lemma codes_of_units (st : State) (codes : list string) (b : Batch) (u : Unit) :
  rtc (step args) (batch_init st codes) b →
  u ∈ units b → unit_code u ∈ codes.
Proof.
  intros Hreach Hu. rewrite <- (started_in_order args st codes b Hreach).
  apply elem_of_app. left. apply list_elem_of_fmap. exists u. split; [reflexivity | exact Hu].
Qed.

(** An entry of the returned dict is an entry of [dfs], under one of the
    input identifiers. *)
Lemma returned_entry
    (st : State) (codes : list string) (b : Batch) (m : gmap string DataFrame)
    (code : string) (df : DataFrame) :
  rtc (step args) (batch_init st codes) b →
  main b = Returned m →
  m !! code = Some df →
  code ∈ codes ∧ dfs (shared b) !! code = Some df.
Proof.
  intros Hreach Hret Hin.
  pose proof (joined_all_ended args st codes b Hreach) as Hended.
  rewrite Hret in Hended. destruct Hended as [_ ->].
  split; [|exact Hin].
  assert (Hdom : code ∈ dom (dfs (shared b))) by (apply elem_of_dom; eauto).
  rewrite (dfs_keys args st codes b Hreach) in Hdom.
  apply elem_of_list_to_set, list_elem_of_fmap in Hdom as (u & -> & Hu).
  apply list_elem_of_In, List.filter_In in Hu as [Hu _]. apply list_elem_of_In in Hu.
  eapply codes_of_units; eassumption.
Qed.

(** X9. No table ends up under the wrong identifier: every entry of the
    dict that [get_quote_history_multi] returns stands under one of the
    input identifiers and holds a table that a call of
    [get_quote_history_single] for that very identifier returned. *)
Theorem returned_tables_were_fetched_for_their_code
    (st : State) (codes : list string) (b : Batch) (m : gmap string DataFrame)
    (code : string) (df : DataFrame) :
  rtc (step args) (batch_init st codes) b →
  main b = Returned m →
  m !! code = Some df →
  code ∈ codes ∧ fetched_for args code df.
Proof.
  intros Hreach Hret Hin.
  destruct (returned_entry st codes b m code df Hreach Hret Hin) as [Hcode Hdfs].
  destruct (tables_and_exceptions_come_from_fetches st codes b Hreach) as [Hd _].
  split; [exact Hcode | exact (Hd code df Hdfs)].
Qed.

Lemma fetch_in_quote_id_mode code beg end_ klt fqt kw s r s' :
  quote_id_mode kw = true →
  get_quote_history_single code beg end_ klt fqt kw s = (r, s') →
  s' = sent (kline_request code beg end_ klt fqt) s.
Proof.
  intros Hmode Hrun.
  assert (Hq : quote_id_of code kw s = (Ok code, s))
    by (unfold quote_id_of; rewrite Hmode; reflexivity).
  destruct (get_quote_history_single_after_resolving _ beg end_ klt fqt _ _ _ _ Hq)
    as [Hst _].
  rewrite Hrun in Hst. exact Hst.
Qed.

Lemma sum_list_with_bound {A} (f : A → nat) (k : nat) (l : list A) :
  Forall (λ x, f x ≤ k) l → sum_list_with f l ≤ length l * k.
Proof. induction 1 as [|x l Hx _ IH]; simpl; lia. Qed.

Lemma attempts_within_tries (st : State) (codes : list string) (b : Batch) :
  (0 ≤ tries args)%Z →
  rtc (step args) (batch_init st codes) b →
  Forall (λ u, attempts u ≤ Z.to_nat (tries args)) (units b).
Proof.
  intros Htries Hreach.
  pose proof (attempts_accounted args st codes b Hreach) as Hacc.
  eapply Forall_impl; [exact Hacc|]. intros u. unfold attempts_ok.
  destruct (pc u); lia.
Qed.

Lemma units_within_codes (st : State) (codes : list string) (b : Batch) :
  rtc (step args) (batch_init st codes) b → length (units b) ≤ length codes.
Proof.
  intros Hreach. rewrite <- (started_in_order args st codes b Hreach).
  rewrite length_app, length_map. lia.
Qed.

(** X10. With [quote_id_mode], a batch sends one k-line request per attempt
    and nothing else: at every moment the requests sent since the call are
    as many as the attempts made so far, each is the k-line request of one
    of the input identifiers, and the cache of reference records is as it
    was. With [tries >= 0] that is at most [tries] requests per input
    identifier. *)
Theorem batch_sends_one_request_per_attempt
    (st : State) (codes : list string) (b : Batch) :
  quote_id_mode (kwargs args) = true →
  rtc (step args) (batch_init st codes) b →
  (∃ new,
     log (state (shared b)) = log st ++ new ∧
     length new = total_attempts (units b) ∧
     Forall (λ rq, ∃ code, code ∈ codes ∧
                   rq = kline_request code (beg args) (end_ args)
                          (klt args) (fqt args)) new) ∧
  BASE_INFO_CACHE (state (shared b)) = BASE_INFO_CACHE st ∧
  ((0 ≤ tries args)%Z →
   total_attempts (units b) ≤ length codes * Z.to_nat (tries args)).
Proof.
  intros Hmode Hreach. split; [|split].
  - revert b Hreach. apply batch_ind.
    + exists []. simpl. rewrite app_nil_r. repeat split. constructor.
    + intros b b' _ IH Hm. main_step_cases Hm b; simpl in *; try exact IH.
      destruct IH as (new & Hlog & Hlen & Hall). exists new.
      unfold total_attempts in *. rewrite sum_list_with_app. simpl.
      split; [exact Hlog|]. split; [lia | exact Hall].
    + intros b l1 u l2 sh' u' Hreach (new & Hlog & Hlen & Hall) Hl Hu. simpl.
      assert (Hin : unit_code u ∈ codes).
      { eapply codes_of_units; [exact Hreach|]. rewrite Hl.
        apply elem_of_app. right. apply list_elem_of_here. }
      rewrite Hl in Hlen. unfold total_attempts in *.
      rewrite sum_list_with_app in *. simpl in *.
      unit_step_cases Hu u; simpl in *;
        try (exists new; split; [exact Hlog|]; split; [lia | exact Hall]);
        apply (fetch_in_quote_id_mode _ _ _ _ _ _ _ _ _ Hmode) in Hfetch as ->;
        eexists (new ++ [_]); simpl;
        (split; [rewrite Hlog, app_assoc; reflexivity|]);
        (split; [rewrite length_app; simpl; lia|]);
        (apply Forall_app; split; [exact Hall|]); (constructor; [|constructor]);
        exists code; (split; [exact Hin | reflexivity]).
  - revert b Hreach. apply batch_ind.
    + reflexivity.
    + intros b b' _ IH Hm. main_step_cases Hm b; simpl in *; exact IH.
    + intros b l1 u l2 sh' u' _ IH Hl Hu. simpl.
      unit_step_cases Hu u; simpl in *; try exact IH;
        apply (fetch_in_quote_id_mode _ _ _ _ _ _ _ _ _ Hmode) in Hfetch as ->;
        exact IH.
  - intros Htries. unfold total_attempts.
    pose proof (attempts_within_tries st codes b Htries Hreach) as Hall.
    pose proof (units_within_codes st codes b Hreach) as Hlen.
    pose proof (sum_list_with_bound attempts _ _ Hall) as Hsum.
    nia.
Qed.

(** X11. The retries of a unit are bounded by [tries]: with [tries >= 0] no
    unit makes more than [tries] attempts; a unit that died made exactly
    [tries] attempts and carries an exception that a fetch for its
    identifier raised; a unit that got its table made at least one attempt;
    and a unit that ended without an attempt exists only when [tries] is
    0. *)
Theorem retries_are_bounded
    (st : State) (codes : list string) (b : Batch) (u : Unit) :
  rtc (step args) (batch_init st codes) b →
  u ∈ units b →
  ((0 ≤ tries args)%Z → Z.of_nat (attempts u) ≤ tries args)%Z ∧
  (∀ e, pc u = Died e →
        Z.of_nat (attempts u) = tries args ∧ raised_for args (unit_code u) e) ∧
  (stored u = true → 1 ≤ attempts u) ∧
  (pc u = Skipped → tries args = 0%Z ∧ attempts u = 0).
Proof.
  intros Hreach Hu.
  pose proof (attempts_accounted args st codes b Hreach) as Hacc.
  destruct (tables_and_exceptions_come_from_fetches st codes b Hreach) as [_ Hfrom].
  rewrite Forall_forall in Hacc, Hfrom.
  specialize (Hacc u Hu). destruct (Hfrom u Hu) as [_ Hdied].
  unfold attempts_ok in Hacc. unfold stored.
  split; [|split; [|split]].
  - destruct (pc u); lia.
  - intros e He. split; [rewrite He in Hacc; exact Hacc | exact (Hdied e He)].
  - destruct (pc u); try discriminate; lia.
  - intros Hs. rewrite Hs in Hacc. destruct Hacc as [-> ->]. split; reflexivity.
Qed.

Lemma zero_tries_invariant (st : State) (codes : list string) (b : Batch) :
  tries args = 0%Z →
  rtc (step args) (batch_init st codes) b →
  state (shared b) = st ∧ dfs (shared b) = ∅ ∧ pbar_n (shared b) = 0 ∧
  Forall (λ u, attempts u = 0 ∧ (pc u = Trying 0 ∨ pc u = Skipped)) (units b).
Proof.
  intros Hzero. revert b. apply batch_ind.
  - repeat split. constructor.
  - intros b b' _ IH Hm. main_step_cases Hm b; simpl in *; try exact IH.
    destruct IH as (Hs & Hd & Hn & Hall). repeat (split; [assumption|]).
    apply Forall_app. split; [exact Hall|]. constructor; [|constructor].
    unfold start. simpl. rewrite Hzero. split; [reflexivity | left; reflexivity].
  - intros b l1 u l2 sh' u' _ (Hs & Hd & Hn & Hall) Hl Hu. rewrite Hl in Hall. simpl.
    apply Forall_app in Hall as [H1 H2]. apply Forall_cons in H2 as [[Ha Hpc] H2].
    rewrite Forall_app, Forall_cons.
    unit_step_cases Hu u; simpl in *;
      try (destruct Hpc as [Hpc|Hpc]; discriminate Hpc);
      try (destruct Hpc as [Hpc|Hpc]; [injection Hpc as ->; contradiction | discriminate Hpc]).
    repeat (split; [assumption|]). split; [|exact H2].
    split; [exact Ha | right; reflexivity].
Qed.

(** X12. With [tries = 0] the batch fetches nothing: no unit makes an
    attempt, the process state (and so the log of requests) stays as it
    was, and what is returned is the empty dict, for any input. *)
Theorem zero_tries_fetch_nothing
    (st : State) (codes : list string) (b : Batch) :
  tries args = 0%Z →
  rtc (step args) (batch_init st codes) b →
  state (shared b) = st ∧
  total_attempts (units b) = 0 ∧
  (∀ m, main b = Returned m →
        m = ∅ ∧ Forall (λ u, pc u = Skipped) (units b) ∧
        map unit_code (units b) = codes).
Proof.
  intros Hzero Hreach.
  destruct (zero_tries_invariant st codes b Hzero Hreach) as (Hs & Hd & _ & Hall).
  split; [exact Hs|]. split.
  - unfold total_attempts. clear -Hall.
    induction Hall as [|u us [Hu _] _ IH]; simpl; [reflexivity | lia].
  - intros m Hret.
    pose proof (joined_all_ended args st codes b Hreach) as Hended.
    pose proof (started_in_order args st codes b Hreach) as Hcodes.
    rewrite Hret in Hended, Hcodes. destruct Hended as [Hended ->].
    simpl in Hcodes. rewrite app_nil_r in Hcodes.
    split; [exact Hd|]. split; [|exact Hcodes].
    apply forallb_Forall in Hended.
    apply Forall_forall. intros u Hu. rewrite Forall_forall in Hended, Hall.
    specialize (Hended u Hu). destruct (Hall u Hu) as [_ [Hpc|Hpc]]; [|exact Hpc].
    unfold terminated in Hended. rewrite Hpc in Hended. discriminate.
Qed.

Lemma filter_all {A} (p : A → bool) (l : list A) :
  Forall (λ x, p x = true) l → List.filter p l = l.
Proof.
  induction 1 as [|x l Hx _ IH]; [reflexivity|]. simpl. rewrite Hx, IH. reflexivity.
Qed.

Lemma nothing_fails (st : State) (codes : list string) (b : Batch) :
  (∀ code s, ∃ df s',
     get_quote_history_single code (beg args) (end_ args) (klt args)
       (fqt args) (kwargs args) s = (Ok df, s')) →
  rtc (step args) (batch_init st codes) b →
  Forall (λ u, match pc u with
               | Trying t => attempts u = 0
               | Fetched _ | Stored | Updated | Finished => attempts u = 1
               | Skipped => True
               | Died _ => False
               end) (units b).
Proof.
  intros Hsucc. revert b. apply batch_ind.
  - constructor.
  - intros b b' _ IH Hm. main_step_cases Hm b; simpl in *; try exact IH.
    apply Forall_app. split; [exact IH|]. constructor; [reflexivity | constructor].
  - intros b l1 u l2 sh' u' _ IH Hl Hu. rewrite Hl in IH. simpl.
    apply Forall_app in IH as [IH1 IH2]. apply Forall_cons in IH2 as [IHu IH2].
    apply Forall_app. split; [exact IH1|]. constructor; [|exact IH2].
    clear IH1 IH2 Hl. revert IHu.
    unit_step_cases Hu u; simpl; try (intros; congruence || exact I);
      destruct (Hsucc code (state (shared b))) as (df' & s' & Hok);
      rewrite Hok in Hfetch; discriminate.
Qed.

(** X13. When every fetch succeeds and [tries] is not 0, nothing is
    retried and nothing is missing: when the batch has returned every unit
    has finished after exactly one attempt, the keys of the returned dict
    are exactly the input identifiers, and the progress counter has reached
    its total, the number of inputs. *)
Theorem all_fetched_when_every_fetch_succeeds
    (st : State) (codes : list string) (b : Batch) (m : gmap string DataFrame) :
  tries args ≠ 0%Z →
  (∀ code s, ∃ df s',
     get_quote_history_single code (beg args) (end_ args) (klt args)
       (fqt args) (kwargs args) s = (Ok df, s')) →
  rtc (step args) (batch_init st codes) b →
  main b = Returned m →
  Forall (λ u, pc u = Finished ∧ attempts u = 1) (units b) ∧
  dom m = list_to_set codes ∧
  pbar_n (shared b) = length codes ∧
  pbar_n (shared b) = pbar_total (shared b).
Proof.
  intros Htries Hsucc Hreach Hret.
  pose proof (started_in_order args st codes b Hreach) as Hcodes.
  pose proof (joined_all_ended args st codes b Hreach) as Hended.
  pose proof (dfs_keys args st codes b Hreach) as Hkeys.
  pose proof (attempts_accounted args st codes b Hreach) as Hacc.
  pose proof (nothing_fails st codes b Hsucc Hreach) as Hfine.
  destruct (pbar_counts args st codes b Hreach) as [Hn Htotal].
  rewrite Hret in Hcodes, Hended. simpl in Hcodes. rewrite app_nil_r in Hcodes.
  destruct Hended as [Hended ->].
  destruct (ended_stored_succeeded _ Hended) as [Hstored Hcounted].
  assert (Hall : Forall (λ u, pc u = Finished ∧ attempts u = 1) (units b)).
  { apply forallb_Forall in Hended. apply Forall_forall. intros u Hu.
    rewrite Forall_forall in Hended, Hacc, Hfine.
    specialize (Hended u Hu). specialize (Hacc u Hu). specialize (Hfine u Hu).
    unfold terminated in Hended. unfold attempts_ok in Hacc.
    destruct (pc u); try discriminate.
    - split; [reflexivity | exact Hfine].
    - destruct Hacc as [_ Hzero]. contradiction.
    - destruct Hfine. }
  assert (Hsame : List.filter succeeded (units b) = units b).
  { apply filter_all. eapply Forall_impl; [exact Hall|].
    intros u [Hpc _]. unfold succeeded. rewrite Hpc. reflexivity. }
  split; [exact Hall|]. split; [|split].
  - rewrite Hkeys, Hstored, Hsame, Hcodes. reflexivity.
  - rewrite Hn, Hcounted, Hsame, <- Hcodes, length_map. reflexivity.
  - rewrite Htotal, Hn, Hcounted, Hsame, <- Hcodes, length_map. reflexivity.
Qed.

(** The returned dict when the outcome of a fetch does not depend on the
    state it runs in. *)
Lemma returned_dict_characterised
    (st : State) (codes : list string) (b : Batch) (m : gmap string DataFrame) :
  tries args ≠ 0%Z →
  (∀ code s1 s2,
     (get_quote_history_single code (beg args) (end_ args) (klt args)
        (fqt args) (kwargs args) s1).1 =
     (get_quote_history_single code (beg args) (end_ args) (klt args)
        (fqt args) (kwargs args) s2).1) →
  rtc (step args) (batch_init st codes) b →
  main b = Returned m →
  ∀ code df,
    m !! code = Some df ↔
    code ∈ codes ∧
    (get_quote_history_single code (beg args) (end_ args) (klt args)
       (fqt args) (kwargs args) st).1 = Ok df.
Proof.
  intros Htries Hdet Hreach Hret.
  assert (Hto : ∀ code df, m !! code = Some df →
    code ∈ codes ∧
    (get_quote_history_single code (beg args) (end_ args) (klt args)
       (fqt args) (kwargs args) st).1 = Ok df).
  { intros code df Hin.
    destruct (returned_entry st codes b m code df Hreach Hret Hin)
      as [Hcode Hdfs].
    destruct (tables_and_exceptions_come_from_fetches st codes b Hreach) as [Hd _].
    destruct (Hd code df Hdfs) as (s & s' & Hrun).
    split; [exact Hcode|]. rewrite (Hdet code st s), Hrun. reflexivity. }
  intros code df. split; [apply Hto|]. intros [Hcode Hok].
  pose proof (started_in_order args st codes b Hreach) as Hcodes.
  pose proof (joined_all_ended args st codes b Hreach) as Hended.
  pose proof (dfs_keys args st codes b Hreach) as Hkeys.
  pose proof (attempts_accounted args st codes b Hreach) as Hacc.
  destruct (tables_and_exceptions_come_from_fetches st codes b Hreach) as [_ Hfrom].
  rewrite Hret in Hcodes, Hended. simpl in Hcodes. rewrite app_nil_r in Hcodes.
  destruct Hended as [Hended Hm].
  rewrite <- Hcodes in Hcode. apply list_elem_of_fmap in Hcode as (u & -> & Hu).
  apply forallb_Forall in Hended. rewrite Forall_forall in Hended, Hacc, Hfrom.
  specialize (Hended u Hu). specialize (Hacc u Hu). destruct (Hfrom u Hu) as [_ Hdied].
  unfold terminated in Hended. unfold attempts_ok in Hacc.
  destruct (pc u) eqn:Hpc; try discriminate.
  - assert (Hdom : unit_code u ∈ dom m).
    { rewrite Hm, Hkeys. apply elem_of_list_to_set, list_elem_of_fmap.
      exists u. split; [reflexivity|].
      apply list_elem_of_In, List.filter_In. split; [apply list_elem_of_In; exact Hu|].
      unfold stored. rewrite Hpc. reflexivity. }
    apply elem_of_dom in Hdom as [df' Hdf'].
    destruct (Hto _ _ Hdf') as [_ Hok']. rewrite Hok in Hok'.
    injection Hok' as ->. exact Hdf'.
  - destruct Hacc as [_ Hzero]. contradiction.
  - destruct (Hdied e eq_refl) as (s & s' & Hrun).
    rewrite (Hdet _ st s), Hrun in Hok. discriminate.
Qed.

(** X14. When the outcome of a fetch does not depend on the state it runs
    in (the service answers a request the same whatever was asked before),
    the dict that [get_quote_history_multi] returns does not depend on how
    the units were scheduled: any two runs return the same dict, which (for
    [tries] other than 0) maps exactly the input identifiers whose fetch
    succeeds to the table of that fetch. *)
Theorem batch_result_does_not_depend_on_the_schedule
    (st : State) (codes : list string) (b1 b2 : Batch)
    (m1 m2 : gmap string DataFrame) :
  (∀ code s1 s2,
     (get_quote_history_single code (beg args) (end_ args) (klt args)
        (fqt args) (kwargs args) s1).1 =
     (get_quote_history_single code (beg args) (end_ args) (klt args)
        (fqt args) (kwargs args) s2).1) →
  rtc (step args) (batch_init st codes) b1 → main b1 = Returned m1 →
  rtc (step args) (batch_init st codes) b2 → main b2 = Returned m2 →
  m1 = m2 ∧
  (tries args ≠ 0%Z →
   ∀ code df,
     m1 !! code = Some df ↔
     code ∈ codes ∧
     (get_quote_history_single code (beg args) (end_ args) (klt args)
        (fqt args) (kwargs args) st).1 = Ok df).
Proof.
  intros Hdet Hreach1 Hret1 Hreach2 Hret2.
  split; [|intros Htries; apply (returned_dict_characterised st codes b1 m1); assumption].
  destruct (decide (tries args = 0%Z)) as [Hzero|Htries].
  - destruct (zero_tries_invariant st codes b1 Hzero Hreach1) as (_ & Hd1 & _).
    destruct (zero_tries_invariant st codes b2 Hzero Hreach2) as (_ & Hd2 & _).
    pose proof (joined_all_ended args st codes b1 Hreach1) as He1.
    pose proof (joined_all_ended args st codes b2 Hreach2) as He2.
    rewrite Hret1 in He1. rewrite Hret2 in He2.
    destruct He1 as [_ ->]. destruct He2 as [_ ->]. rewrite Hd1, Hd2. reflexivity.
  - pose proof (returned_dict_characterised st codes b1 m1 Htries Hdet Hreach1 Hret1) as H1.
    pose proof (returned_dict_characterised st codes b2 m2 Htries Hdet Hreach2 Hret2) as H2.
    apply map_eq. intros code.
    destruct (m1 !! code) as [df|] eqn:E1.
    + symmetry. apply H2, H1. exact E1.
    + destruct (m2 !! code) as [df|] eqn:E2; [|reflexivity].
      apply H2, H1 in E2. rewrite E1 in E2. discriminate.
Qed.

End MoreBatchFacts.

(** ** Further properties of the dispatch facade *)

Section MoreDispatchFacts.
Context `{Env}.

Lemma empty_batch_invariant (args : BatchArgs) (st : State) (b : Batch) :
  rtc (step args) (batch_init st []) b →
  units b = [] ∧ state (shared b) = st ∧ dfs (shared b) = ∅ ∧
  ∀ m, main b = Returned m → m = ∅.
Proof.
  revert b. apply batch_ind.
  - repeat split. intros m Hm. discriminate.
  - intros b b' Hreach (Hu & Hs & Hd & Hm) Hstep.
    pose proof (started_in_order args st [] b Hreach) as Hnone.
    main_step_cases Hstep b; simpl in *.
    + repeat split; try assumption. intros m' Hm'. discriminate.
    + rewrite Hu in Hnone. discriminate.
    + repeat split; try assumption. intros m' [= <-]. exact Hd.
  - intros b l1 u l2 sh' u' _ (Hu & _) Hl _. rewrite Hu in Hl.
    destruct l1; discriminate.
Qed.

(** X15. A call of [get_quote_history] with an empty list or tuple returns
    the empty dict and leaves the state as it was (nothing is sent),
    whatever the other arguments are; it has no other outcome. *)
Theorem dispatch_of_no_identifiers
    (codes : Arg) (beg end_ : string) (klt fqt : Z) (kw : Kwargs)
    (st st' : State) (out : Outcome) :
  codes = ArgList [] ∨ codes = ArgTuple [] →
  (get_quote_history codes beg end_ klt fqt kw st out st' ↔
   out = ResultMap ∅ ∧ st' = st).
Proof.
  intros Hcodes.
  assert (Hshape : isinstance_str codes = false ∧ has_iter codes = true ∧
                   to_list codes = [])
    by (destruct Hcodes as [-> | ->]; repeat split).
  destruct Hshape as (Hstr & Hiter & Hlist). split.
  - intros Hrun. inversion Hrun as [s r st0 Hs | m st0 _ _ Hmulti | _ Hno].
    + subst codes. discriminate.
    + rewrite Hlist in Hmulti. destruct Hmulti as (b & Hreach & Hret & Hstate).
      destruct (empty_batch_invariant _ _ _ Hreach) as (_ & Hs & _ & Hm).
      rewrite (Hm m Hret). split; [reflexivity|]. rewrite <- Hstate. exact Hs.
    + congruence.
  - intros [-> ->]. apply dispatch_multi; [exact Hstr | exact Hiter|].
    rewrite Hlist.
    exists (run (batch_args beg end_ klt fqt kw) [None; None] (batch_init st [])).
    split; [apply run_steps|]. split; reflexivity.
Qed.

End MoreDispatchFacts.

(** ** The further properties on test inputs *)

Section OnFeeds.
#[local] Existing Instance decimal_numbers.
#[local] Existing Instance Cases.feeds_env.

(** The flow of today for an instrument without data is no empty table but
    a [TypeError]. *)
Lemma get_today_bill_needs_a_name_witness :
  get_today_bill "0.000000" Sample.fresh =
    (Raise TypeError, sent (today_bill_request "0.000000") Sample.fresh).
Proof.
  apply (get_today_bill_needs_a_name "0.000000" Sample.fresh "0.000000"
           Sample.fresh Sample.no_data); reflexivity.
Defined.

(** The flow of today for an instrument with one line of six pieces. *)
Lemma get_today_bill_schema_witness :
  ∃ df st',
    get_today_bill "1.000001" Sample.fresh = (Ok df, st') ∧
    columns df = "名称" :: "代码" :: today_bill_columns ∧
    well_formed df ∧
    length (rows df) = 1.
Proof.
  eexists _, _. split; [reflexivity|].
  edestruct (get_today_bill_schema "1.000001" Sample.fresh "1.000001"
               Sample.fresh (Sample.payload "Ping An" Cases.today_lines))
    as (Hcols & Hwf & _ & Hlen & _); [reflexivity..|].
  split; [exact Hcols|]. split; [exact Hwf | exact Hlen].
Defined.

(** The flow history of an instrument with two lines. *)
Lemma history_bill_lines_witness :
  ∃ df st',
    get_history_bill "1.000001" Sample.fresh = (Ok df, st') ∧
    length (rows df) = 2 ∧
    st' = sent (bill_request "1.000001") Sample.fresh ∧
    ∃ raw, df = normalize_frame raw ∧
           columns raw = ["名称"; "代码"; "日期"; "主力净流入"].
Proof.
  eexists _, _. split; [reflexivity|].
  edestruct (history_bill_lines_become_rows "1.000001" Sample.fresh "1.000001"
               Sample.fresh (Sample.payload "Ping An" Cases.bill_lines)
               (JStr "2021-01-04,1200") [JStr "2021-01-05,-300"])
    as (lines & name & others & names & raw & Hlines & _ & _ & _ & Hcols &
        _ & Hdf & Hlen & Hst); [reflexivity..|].
  split.
  - rewrite Hlen. apply (f_equal length) in Hlines.
    rewrite length_map in Hlines. symmetry. exact Hlines.
  - split; [exact Hst|]. exists raw. split; [exact Hdf | exact Hcols].
Defined.

(** The three defects of a payload with lines, each on its own
    instrument. *)
Lemma malformed_payload_witness :
  (get_quote_history_single "4.000004" "19000101" "20500101" 101 1
     Sample.no_kwargs Sample.fresh).1 = Raise AttributeError ∧
  (get_quote_history_single "3.000003" "19000101" "20500101" 101 1
     Sample.no_kwargs Sample.fresh).1 = Raise (KeyError "data") ∧
  (get_quote_history_single "2.000002" "19000101" "20500101" 101 1
     Sample.no_kwargs Sample.fresh).1 = Raise ValueError.
Proof.
  split; [|split].
  - destruct (malformed_payload_raises "4.000004" "19000101" "20500101" 101 1
                Sample.no_kwargs Sample.fresh "4.000004" Sample.fresh
                Cases.not_text Cases.a_number [])
      as (_ & Hattr & _); [reflexivity..|].
    apply Hattr. intros [|line lines]; discriminate.
  - destruct (malformed_payload_raises "3.000003" "19000101" "20500101" 101 1
                Sample.no_kwargs Sample.fresh "3.000003" Sample.fresh
                Cases.nameless (JStr "2021-01-04,1,2") [])
      as (_ & _ & Hname & _); [reflexivity..|].
    apply (Hname ["2021-01-04,1,2"]); reflexivity.
  - destruct (malformed_payload_raises "2.000002" "19000101" "20500101" 101 1
                Sample.no_kwargs Sample.fresh "2.000002" Sample.fresh
                Cases.ragged (JStr "a,b") [JStr "a,b,c,d"])
      as (_ & _ & _ & Hwidth); [reflexivity..|].
    apply (Hwidth ["a,b"; "a,b,c,d"] (JStr "Ragged")); [reflexivity..|].
    vm_compute. discriminate.
Defined.

(** The reference record of an instrument without data, and of one for
    which the payload has no [data]. *)
Lemma get_base_info_without_data_witness :
  (get_base_info "0.000000" Sample.fresh).1 =
    Ok [(LStr "代码", NaN); (LStr "名称", NaN)] ∧
  (get_base_info "1.000001" Sample.fresh).1 = Raise (KeyError "data").
Proof.
  split.
  - destruct (get_base_info_without_data "0.000000" Sample.fresh)
      as (_ & _ & Hfalsy & _).
    apply (Hfalsy Sample.no_data JNull); reflexivity.
  - destruct (get_base_info_without_data "1.000001" Sample.fresh)
      as (_ & _ & _ & Hmissing & _).
    apply (Hmissing Cases.no_data_key); reflexivity.
Defined.

(** The lookup for the instrument without data stores the record of
    [nan]s. *)
Lemma record_without_data_witness :
  ∃ st1,
    get_deal_detail_base_info "0.000000" Sample.fresh =
      (Ok [(LStr "代码", NaN); (LStr "名称", NaN)], st1) ∧
    BASE_INFO_CACHE st1 !! "0.000000" =
      Some [(LStr "代码", NaN); (LStr "名称", NaN)].
Proof.
  destruct (record_without_data_is_kept "0.000000" Sample.fresh
              Sample.no_data JNull) as (st1 & Hrun & _ & Hcache & _);
    [reflexivity..|].
  exists st1. split; [exact Hrun|]. rewrite Hcache. apply lookup_insert_eq.
Defined.

End OnFeeds.

Section OnQuotesAgain.
#[local] Existing Instance decimal_numbers.
#[local] Existing Instance Sample.quotes_env.

(** A fetch with [quote_id_mode] logs its one request; a fetch for an
    unknown instrument raises what the transport raised. *)
Lemma single_fetch_witness :
  log (get_quote_history_single "1.000001" "19000101" "20500101" 101 1
         Cases.verbatim Sample.fresh).2 =
    [kline_request "1.000001" "19000101" "20500101" 101 1] ∧
  (get_quote_history_single "BADID" "19000101" "20500101" 101 1
     Sample.no_kwargs Sample.fresh).1 = Raise ConnectionError.
Proof.
  split.
  - destruct (single_fetch_sends_one_request "1.000001" "19000101" "20500101"
                101 1 Cases.verbatim Sample.fresh) as (_ & _ & Hmode).
    destruct (Hmode eq_refl) as [Hlog _]. exact Hlog.
  - destruct (single_fetch_sends_one_request "BADID" "19000101" "20500101"
                101 1 Sample.no_kwargs Sample.fresh) as (_ & Hsent & _).
    destruct (Hsent "BADID" Sample.fresh eq_refl) as [_ Hfails].
    apply Hfails. reflexivity.
Defined.

(** The code column of the table for ["1.000001"] holds ["000001"]. *)
Lemma code_column_witness :
  ∃ df st',
    get_quote_history_single "1.000001" "19000101" "20500101" 101 1
      Sample.no_kwargs Sample.fresh = (Ok df, st') ∧
    ∃ raw, df = normalize_frame raw ∧
           rows raw ≠ [] ∧
           Forall (λ r, r !! 1 = Some (Str "000001")) (rows raw) ∧
           columns df !! 1 = Some "代码".
Proof.
  eexists _, _. split; [reflexivity|].
  eapply (code_column_follows_the_last_dot "1.000001" "19000101" "20500101"
            101 1 Sample.no_kwargs Sample.fresh "1.000001" "000001" Sample.fresh
            (Sample.payload "Ping An" Sample.ping_an_lines));
    [right; exists "1"; split; reflexivity | reflexivity..].
Defined.

(** The first lookup stores the record of Ping An, the second returns
    it. *)
Lemma lookup_keeps_witness :
  BASE_INFO_CACHE Sample.first_lookup.2 !! "1.000001" = Some Sample.ping_an_info ∧
  ∀ r2 st2,
    get_deal_detail_base_info "1.000001" Sample.first_lookup.2 = (Ok r2, st2) →
    r2 = Sample.ping_an_info ∧
    BASE_INFO_CACHE st2 = BASE_INFO_CACHE Sample.first_lookup.2.
Proof.
  destruct (lookup_keeps_the_first_record "1.000001" Sample.fresh) as [Hok _].
  destruct (Hok Sample.ping_an_info Sample.first_lookup.2 eq_refl)
    as (Hstored & _ & _ & Hagain).
  split; [exact Hstored | exact Hagain].
Defined.

(** The table under ["1.000001"] in the batch of three codes is the table
    of a fetch for ["1.000001"]. *)
Lemma returned_tables_witness :
  "1.000001" ∈ Sample.three_codes ∧
  fetched_for Sample.default_args "1.000001" (normalize_frame Sample.ping_an_raw).
Proof.
  apply (returned_tables_were_fetched_for_their_code Sample.default_args
           Sample.fresh Sample.three_codes Sample.quotes_batch
           (dfs (shared Sample.quotes_batch)) "1.000001"
           (normalize_frame Sample.ping_an_raw));
    [exact quotes_batch_reached | reflexivity..].
Defined.

Lemma verbatim_batch_reached :
  rtc (step Cases.verbatim_args) (batch_init Sample.fresh Sample.three_codes)
      Cases.verbatim_batch.
Proof. apply run_steps. Qed.

(** With [quote_id_mode] the batch of three codes sent as many requests as
    it made attempts, at most nine. *)
Lemma batch_requests_witness :
  (∃ new,
     log (state (shared Cases.verbatim_batch)) = log Sample.fresh ++ new ∧
     length new = total_attempts (units Cases.verbatim_batch) ∧
     Forall (λ rq, ∃ code, code ∈ Sample.three_codes ∧
                   rq = kline_request code "19000101" "20500101" 101 1) new) ∧
  BASE_INFO_CACHE (state (shared Cases.verbatim_batch)) = ∅ ∧
  total_attempts (units Cases.verbatim_batch) ≤ 3 * 3.
Proof.
  destruct (batch_sends_one_request_per_attempt Cases.verbatim_args Sample.fresh
              Sample.three_codes Cases.verbatim_batch eq_refl
              verbatim_batch_reached) as (Hlog & Hcache & Hbound).
  split; [exact Hlog|]. split; [exact Hcache|]. apply Hbound. simpl. lia.
Defined.

Lemma idle_batch_reached :
  rtc (step Cases.no_tries) (batch_init Sample.fresh Sample.three_codes)
      Cases.idle_batch.
Proof. apply run_steps. Qed.

(** With [tries = 0] the batch of three codes asked for nothing and
    returned the empty dict. *)
Lemma zero_tries_witness :
  state (shared Cases.idle_batch) = Sample.fresh ∧
  total_attempts (units Cases.idle_batch) = 0 ∧
  main Cases.idle_batch = Returned ∅ ∧
  map unit_code (units Cases.idle_batch) = Sample.three_codes.
Proof.
  destruct (zero_tries_fetch_nothing Cases.no_tries Sample.fresh
              Sample.three_codes Cases.idle_batch eq_refl idle_batch_reached)
    as (Hstate & Hnone & Hret).
  split; [exact Hstate|]. split; [exact Hnone|]. split; [reflexivity|].
  apply (Hret ∅). reflexivity.
Defined.

Lemma sequential_batch_reached :
  rtc (step Sample.default_args) (batch_init Sample.fresh Sample.three_codes)
      Cases.sequential_batch.
Proof. apply run_steps. Qed.

(** The units taking turns and the units running one after the other
    return the same dict. *)
Lemma schedule_witness :
  dfs (shared Sample.quotes_batch) = dfs (shared Cases.sequential_batch).
Proof.
  apply (batch_result_does_not_depend_on_the_schedule Sample.default_args
           Sample.fresh Sample.three_codes Sample.quotes_batch
           Cases.sequential_batch).
  - intros code. apply fetch_outcome_state_independent; reflexivity.
  - exact quotes_batch_reached.
  - reflexivity.
  - exact sequential_batch_reached.
  - reflexivity.
Defined.

(** The empty list gives the empty dict. *)
Lemma dispatch_of_no_identifiers_witness :
  get_quote_history (ArgList []) "19000101" "20500101" 101 1 Sample.no_kwargs
    Sample.fresh (ResultMap ∅) Sample.fresh.
Proof.
  apply (dispatch_of_no_identifiers (ArgList []) "19000101" "20500101" 101 1
           Sample.no_kwargs Sample.fresh Sample.fresh (ResultMap ∅));
    [left; reflexivity | split; reflexivity].
Defined.

End OnQuotesAgain.

Section OnUnreachableAgain.
#[local] Existing Instance decimal_numbers.
#[local] Existing Instance Sample.unreachable_env.

(** The unit of the unreachable code died after its third attempt, with
    the exception of a fetch for its code. *)
Lemma retries_witness :
  Z.of_nat 3 = 3%Z ∧ raised_for Sample.default_args "BADID" ConnectionError.
Proof.
  destruct (retries_are_bounded Sample.default_args Sample.fresh ["BADID"]
              Sample.down_batch
              {| unit_code := "BADID"; pc := Died ConnectionError; attempts := 3 |})
    as (_ & Hdied & _ & _).
  - exact down_batch_reached.
  - rewrite down_batch_unit. apply list_elem_of_here.
  - apply (Hdied ConnectionError). reflexivity.
Defined.

End OnUnreachableAgain.

Section OnGenerous.
#[local] Existing Instance decimal_numbers.
#[local] Existing Instance Cases.generous_env.

Lemma generous_batch_reached :
  rtc (step Sample.default_args) (batch_init Sample.fresh Sample.three_codes)
      Cases.generous_batch.
Proof. apply run_steps. Qed.

(** Against a service that has a line for everything, the three codes are
    all fetched at the first attempt. *)
Lemma all_fetched_witness :
  Forall (λ u, pc u = Finished ∧ attempts u = 1) (units Cases.generous_batch) ∧
  dom (dfs (shared Cases.generous_batch)) = list_to_set Sample.three_codes ∧
  pbar_n (shared Cases.generous_batch) = 3 ∧
  pbar_n (shared Cases.generous_batch) = pbar_total (shared Cases.generous_batch).
Proof.
  apply (all_fetched_when_every_fetch_succeeds Sample.default_args Sample.fresh
           Sample.three_codes Cases.generous_batch
           (dfs (shared Cases.generous_batch))).
  - discriminate.
  - intros code s. eexists _, _. reflexivity.
  - exact generous_batch_reached.
  - reflexivity.
Defined.

End OnGenerous.
